(** * coverage/plugin.py: the plug-in interfaces of coverage.py

    A shallow embedding of [CoveragePlugin], [FileTracer] and [FileReporter]
    together with the part of the Python run time their default method bodies
    rely on ([str.splitlines], [str.join], [bytes.decode], string comparison,
    integer formatting, [hash]). *)

From Stdlib Require Import ZArith NArith List String Ascii Bool Lia.
From Stdlib Require Import Decimal DecimalZ.
From stdpp Require Import base option list gmap sets.

Local Open Scope N_scope.

(** ** Python run time *)

Module Py.

(** A [str] is a sequence of Unicode code points. *)
Abbreviation codepoint := N.
Abbreviation pystr := (list N).

(** An ASCII literal of the source text, as a [str]. *)
Definition lit (s : string) : pystr :=
  map N_of_ascii (list_ascii_of_string s).

(** Exceptions the modelled code can raise. *)
Inductive exn : Type :=
| TypeError (msg : pystr)
| AttributeError (attr : pystr)
| FileNotFoundError (path : pystr)
| UnicodeDecodeError
| ValueError (msg : pystr)
| PluginContractViolation (offender method : pystr).

Inductive result (A : Type) : Type :=
| Ok (a : A)
| Raise (e : exn).
Arguments Ok {A} a.
Arguments Raise {A} e.

#[global] Instance result_ret : MRet result := fun A a => Ok a.
#[global] Instance result_bind : MBind result := fun A B f m =>
  match m with
  | Ok a => f a
  | Raise e => Raise e
  end.

(** *** str.splitlines *)

Definition LF : codepoint := 0x0A.
Definition CR : codepoint := 0x0D.

(** The line boundaries of [str.splitlines]: LF, VT, FF, CR, FS, GS, RS,
    NEL (U+0085), LINE SEPARATOR (U+2028), PARAGRAPH SEPARATOR (U+2029). *)
Definition is_linebreak (c : codepoint) : bool :=
  (c =? 0x0A) || (c =? 0x0B) || (c =? 0x0C) || (c =? 0x0D)
  || (c =? 0x1C) || (c =? 0x1D) || (c =? 0x1E)
  || (c =? 0x85) || (c =? 0x2028) || (c =? 0x2029).

(** The scanning loop of [splitlines] (keepends false).  [cur] holds the
    characters of the line being scanned, last one first.  A line ends at a
    boundary character, \r\n counting as one boundary; what follows the
    last boundary is a line only when it is not empty. *)
Fixpoint splitlines_from (cur : pystr) (s : pystr) : list pystr :=
  match s with
  | [] => match cur with [] => [] | _ :: _ => [rev cur] end
  | c :: rest =>
      if is_linebreak c then
        rev cur ::
          match rest with
          | c2 :: rest2 =>
              if (c =? CR) && (c2 =? LF) then splitlines_from [] rest2
              else splitlines_from [] rest
          | [] => []
          end
      else splitlines_from (c :: cur) rest
  end.

Definition splitlines (s : pystr) : list pystr := splitlines_from [] s.

(** *** str.join *)

Fixpoint join (sep : pystr) (parts : list pystr) : pystr :=
  match parts with
  | [] => []
  | [p] => p
  | p :: ps => p ++ sep ++ join sep ps
  end.

(** *** bytes.decode("utf-8"), strict error handling *)

Definition in_range (lo hi b : N) : bool := (lo <=? b) && (b <=? hi).
Definition continuation (b : N) : bool := in_range 0x80 0xBF b.
Definition payload (b : N) : N := b - 0x80.

Fixpoint utf8_decode (bs : list N) : option pystr :=
  match bs with
  | [] => Some []
  | b0 :: r0 =>
      if b0 <? 0x80 then cons b0 <$> utf8_decode r0
      else if b0 <? 0xC2 then None
      else if b0 <? 0xE0 then
        match r0 with
        | b1 :: r1 =>
            if continuation b1
            then cons ((b0 - 0xC0) * 0x40 + payload b1) <$> utf8_decode r1
            else None
        | _ => None
        end
      else if b0 <? 0xF0 then
        match r0 with
        | b1 :: b2 :: r2 =>
            let lo := if b0 =? 0xE0 then 0xA0 else 0x80 in
            let hi := if b0 =? 0xED then 0x9F else 0xBF in
            if in_range lo hi b1 && continuation b2
            then cons ((b0 - 0xE0) * 0x1000 + payload b1 * 0x40 + payload b2)
                   <$> utf8_decode r2
            else None
        | _ => None
        end
      else if b0 <? 0xF5 then
        match r0 with
        | b1 :: b2 :: b3 :: r3 =>
            let lo := if b0 =? 0xF0 then 0x90 else 0x80 in
            let hi := if b0 =? 0xF4 then 0x8F else 0xBF in
            if in_range lo hi b1 && continuation b2 && continuation b3
            then cons ((b0 - 0xF0) * 0x40000 + payload b1 * 0x1000
                       + payload b2 * 0x40 + payload b3)
                   <$> utf8_decode r3
            else None
        | _ => None
        end
      else None
  end.

Definition decode_utf8 (bs : list Byte.byte) : result pystr :=
  match utf8_decode (map Byte.to_N bs) with
  | Some s => Ok s
  | None => Raise UnicodeDecodeError
  end.

(** *** The file system seen by [open(path, "rb")]

    The map holds the files that can be opened and read.  A path outside it
    is taken to name no file; the other ways [open] can fail (a path that is
    not a valid file name, a directory, a file without read permission) are
    not described. *)

Abbreviation filesystem := (gmap (list N) (list Byte.byte)).

Definition read_binary (fs : filesystem) (path : pystr)
  : result (list Byte.byte) :=
  match fs !! path with
  | Some bs => Ok bs
  | None => Raise (FileNotFoundError path)
  end.

(** *** Comparison of str values: by code point, then by length *)

Fixpoint str_lt (a b : pystr) : bool :=
  match a, b with
  | [], [] => false
  | [], _ :: _ => true
  | _ :: _, [] => false
  | x :: a', y :: b' =>
      if x <? y then true
      else if y <? x then false
      else str_lt a' b'
  end.

Fixpoint str_eq (a b : pystr) : bool :=
  match a, b with
  | [], [] => true
  | x :: a', y :: b' => (x =? y) && str_eq a' b'
  | _, _ => false
  end.

(** *** Formatting an int in an f-string: decimal, a minus sign when negative *)

Definition digit (d : N) : codepoint := 0x30 + d.

Fixpoint uint_str (u : Decimal.uint) : pystr :=
  match u with
  | Decimal.Nil => []
  | Decimal.D0 u' => digit 0 :: uint_str u'
  | Decimal.D1 u' => digit 1 :: uint_str u'
  | Decimal.D2 u' => digit 2 :: uint_str u'
  | Decimal.D3 u' => digit 3 :: uint_str u'
  | Decimal.D4 u' => digit 4 :: uint_str u'
  | Decimal.D5 u' => digit 5 :: uint_str u'
  | Decimal.D6 u' => digit 6 :: uint_str u'
  | Decimal.D7 u' => digit 7 :: uint_str u'
  | Decimal.D8 u' => digit 8 :: uint_str u'
  | Decimal.D9 u' => digit 9 :: uint_str u'
  end.

Definition int_str (z : Z) : pystr :=
  match Z.to_int z with
  | Decimal.Pos u => uint_str u
  | Decimal.Neg u => 0x2D :: uint_str u
  end.

(** The digits of an int, without its sign. *)
Definition int_digits (z : Z) : pystr :=
  match Z.to_int z with
  | Decimal.Pos u => uint_str u
  | Decimal.Neg u => uint_str u
  end.

(** The interpreter's default limit on the digits of an int turned into
    text, [sys.int_info.default_max_str_digits]. *)
Definition int_max_str_digits : N := 4300.

Definition int_limit_error : exn :=
  ValueError (lit "Exceeds the limit (4300 digits) for integer string conversion; use sys.set_int_max_str_digits() to increase the limit").

(** A replacement field [{n}] of an f-string for an int [n]: its decimal
    text, or ValueError when it has more digits than the limit. *)
Definition format_int (z : Z) : result pystr :=
  if int_max_str_digits <? N.of_nat (length (int_digits z))
  then Raise int_limit_error
  else Ok (int_str z).

(** *** Plain values, and the operators == and < on them *)

Inductive pyval : Type :=
| VNone
| VBool (b : bool)
| VInt (z : Z)
| VStr (s : pystr).

(** bool is a subclass of int: True is 1 and False is 0. *)
Definition as_int (v : pyval) : option Z :=
  match v with
  | VBool b => Some (if b then 1%Z else 0%Z)
  | VInt z => Some z
  | _ => None
  end.

Definition type_name (v : pyval) : pystr :=
  match v with
  | VNone => lit "NoneType"
  | VBool _ => lit "bool"
  | VInt _ => lit "int"
  | VStr _ => lit "str"
  end.

Definition val_eq (a b : pyval) : bool :=
  match a, b with
  | VNone, VNone => true
  | VStr x, VStr y => str_eq x y
  | _, _ =>
      match as_int a, as_int b with
      | Some x, Some y => (x =? y)%Z
      | _, _ => false
      end
  end.

Definition val_lt (a b : pyval) : result bool :=
  match a, b with
  | VStr x, VStr y => Ok (str_lt x y)
  | _, _ =>
      match as_int a, as_int b with
      | Some x, Some y => Ok (x <? y)%Z
      | _, _ =>
          Raise (TypeError (lit "'<' not supported between instances of '"
                            ++ type_name a ++ lit "' and '"
                            ++ type_name b ++ lit "'"))
      end
  end.

(** Attribute lookup in an instance dictionary. *)
Fixpoint dict_get (d : list (pystr * pyval)) (name : pystr) : option pyval :=
  match d with
  | [] => None
  | (k, v) :: d' => if str_eq k name then Some v else dict_get d' name
  end.

(** *** hash(), and the containers built on it

    [hash(obj)] goes through the [__hash__] slot of the type of [obj]; a
    slot set to None makes the object unhashable. *)
Definition hash {A} (slot : option (A -> Z)) (cls : pystr) (obj : A)
  : result Z :=
  match slot with
  | Some h => Ok (h obj)
  | None => Raise (TypeError (lit "unhashable type: '" ++ cls ++ lit "'"))
  end.

(** A hash table: buckets of entries, indexed by hash value. *)
Definition table_insert {A V} (slot : option (A -> Z)) (cls : pystr)
    (t : gmap Z (list (A * V))) (k : A) (v : V)
  : result (gmap Z (list (A * V))) :=
  h ← hash slot cls k;
  Ok (<[h := (k, v) :: default [] (t !! h)]> t).

Definition table_lookup {A V} (slot : option (A -> Z)) (cls : pystr)
    (t : gmap Z (list (A * V))) (k : A)
  : result (list (A * V)) :=
  h ← hash slot cls k;
  Ok (default [] (t !! h)).

End Py.

Import Py.

(** ** coverage.misc *)

Module Misc.

(** Modelled from the spec: [coverage.misc._needs_to_implement] is not among
    the sources.  A required method that was not overridden is a fatal
    plug-in contract violation that identifies the offending plug-in object
    [that] (by the name of its class) and the method [func_name]. *)
Definition _needs_to_implement {A} (that func_name : pystr) : result A :=
  Raise (PluginContractViolation that func_name).

(** Modelled from the spec: [coverage.misc.contract] is not among the
    sources.  [@contract(returns='unicode')] states that the decorated
    method returns a unicode string; every value of type [pystr] is one. *)
Definition contract_returns_unicode (m : result pystr) : result pystr := m.

End Misc.

(** ** class FileTracer *)

(** The attributes of a frame object the plug-in interface reads. *)
Record frame : Type := {
  f_lineno : Z;
  co_filename : pystr;
}.

Module FileTracer.

(** The methods a subclass may override; [None] inherits the base class. *)
Record tracer_class : Type := {
  class_name : pystr;
  source_filename_ov : option (result pystr);
  has_dynamic_source_filename_ov : option (result bool);
  dynamic_source_filename_ov :
    option (pystr -> frame -> result (option pystr));
  line_number_range_ov : option (frame -> result (Z * Z));
}.

Definition base : tracer_class := {|
  class_name := lit "FileTracer";
  source_filename_ov := None;
  has_dynamic_source_filename_ov := None;
  dynamic_source_filename_ov := None;
  line_number_range_ov := None;
|}.

Definition source_filename (self : tracer_class) : result pystr :=
  Misc._needs_to_implement (class_name self) (lit "source_filename").

Definition has_dynamic_source_filename (self : tracer_class) : bool := false.

Definition dynamic_source_filename (self : tracer_class)
    (filename : pystr) (fr : frame) : option pystr := None.

Definition line_number_range (self : tracer_class) (fr : frame) : Z * Z :=
  let lineno := f_lineno fr in
  (lineno, lineno).

(** Method calls on a tracer object. *)
Definition call_source_filename (t : tracer_class) : result pystr :=
  default (source_filename t) (source_filename_ov t).

Definition call_has_dynamic_source_filename (t : tracer_class) : result bool :=
  default (Ok (has_dynamic_source_filename t))
          (has_dynamic_source_filename_ov t).

Definition call_dynamic_source_filename (t : tracer_class)
    (filename : pystr) (fr : frame) : result (option pystr) :=
  match dynamic_source_filename_ov t with
  | Some f => f filename fr
  | None => Ok (dynamic_source_filename t filename fr)
  end.

Definition call_line_number_range (t : tracer_class) (fr : frame)
  : result (Z * Z) :=
  match line_number_range_ov t with
  | Some f => f fr
  | None => Ok (line_number_range t fr)
  end.

End FileTracer.

(** ** class FileReporter *)

Module FileReporter.

(** The token classes of [source_token_lines]. *)
Inductive token_class : Type :=
| com | key | nam | num | op | str | ws | txt.

Abbreviation token := (token_class * pystr)%type.
Abbreviation arc := (Z * Z)%type.

(** The instance dictionary: [__init__] stores [filename]; a subclass may
    keep further attributes. *)
Record instance : Type := {
  filename : pystr;
  attributes : list (pystr * pyval);
}.

Definition __init__ (filename : pystr) : instance :=
  {| filename := filename; attributes := [] |}.

(** The methods a subclass may override; [None] inherits the method of
    [FileReporter].  The comparison methods and the hash slot are those of
    [FileReporter] itself. *)
Record reporter_class : Type := {
  class_name : pystr;
  source_ov : option (instance -> result pystr);
  lines_ov : option (instance -> result (gset Z));
  excluded_lines_ov : option (instance -> result (gset Z));
  translate_lines_ov : option (instance -> list Z -> result (gset Z));
  arcs_ov : option (instance -> result (gset arc));
  no_branch_lines_ov : option (instance -> result (gset Z));
  translate_arcs_ov : option (instance -> gset arc -> result (gset arc));
  exit_counts_ov : option (instance -> result (gmap Z Z));
  missing_arc_description_ov :
    option (instance -> Z -> Z -> option (gset arc) -> result pystr);
  source_token_lines_ov : option (instance -> result (list (list token)));
}.

Definition base : reporter_class := {|
  class_name := lit "FileReporter";
  source_ov := None;
  lines_ov := None;
  excluded_lines_ov := None;
  translate_lines_ov := None;
  arcs_ov := None;
  no_branch_lines_ov := None;
  translate_arcs_ov := None;
  exit_counts_ov := None;
  missing_arc_description_ov := None;
  source_token_lines_ov := None;
|}.

(** An object: its class and its instance dictionary. *)
Record reporter : Type := {
  cls : reporter_class;
  dict : instance;
}.

(** [FileReporter(filename)]. *)
Definition new (filename : pystr) : reporter :=
  {| cls := base; dict := __init__ filename |}.

(** *** The method bodies of the base class *)

Definition source (fs : filesystem) (self : reporter) : result pystr :=
  Misc.contract_returns_unicode
    (bytes ← read_binary fs (filename (dict self));
     decode_utf8 bytes).

Definition lines (self : reporter) : result (gset Z) :=
  Misc._needs_to_implement (class_name (cls self)) (lit "lines").

Definition excluded_lines (self : reporter) : gset Z := ∅.

Definition translate_lines (self : reporter) (lines : list Z) : gset Z :=
  list_to_set lines.

Definition arcs (self : reporter) : gset arc := ∅.

Definition no_branch_lines (self : reporter) : gset Z := ∅.

Definition translate_arcs (self : reporter) (arcs : gset arc) : gset arc :=
  arcs.

Definition exit_counts (self : reporter) : gmap Z Z := ∅.

Definition missing_arc_description (self : reporter) (start end_ : Z)
    (executed_arcs : option (gset arc)) : result pystr :=
  s ← format_int start;
  e ← format_int end_;
  Ok (lit "Line " ++ s ++ lit " didn't jump to line " ++ e).

(** [self.source()]: the method is looked up in the class of [self]. *)
Definition call_source (fs : filesystem) (r : reporter) : result pystr :=
  match source_ov (cls r) with
  | Some f => f (dict r)
  | None => source fs r
  end.

(** The generator, as the sequence of the lists it yields. *)
Definition source_token_lines (fs : filesystem) (self : reporter)
  : result (list (list token)) :=
  text ← call_source fs self;
  Ok (map (fun line => [(txt, line)]) (splitlines text)).

(** *** Method calls on a reporter object *)

Definition call_lines (r : reporter) : result (gset Z) :=
  match lines_ov (cls r) with
  | Some f => f (dict r)
  | None => lines r
  end.

Definition call_excluded_lines (r : reporter) : result (gset Z) :=
  match excluded_lines_ov (cls r) with
  | Some f => f (dict r)
  | None => Ok (excluded_lines r)
  end.

Definition call_translate_lines (r : reporter) (ls : list Z)
  : result (gset Z) :=
  match translate_lines_ov (cls r) with
  | Some f => f (dict r) ls
  | None => Ok (translate_lines r ls)
  end.

Definition call_arcs (r : reporter) : result (gset arc) :=
  match arcs_ov (cls r) with
  | Some f => f (dict r)
  | None => Ok (arcs r)
  end.

Definition call_no_branch_lines (r : reporter) : result (gset Z) :=
  match no_branch_lines_ov (cls r) with
  | Some f => f (dict r)
  | None => Ok (no_branch_lines r)
  end.

Definition call_translate_arcs (r : reporter) (a : gset arc)
  : result (gset arc) :=
  match translate_arcs_ov (cls r) with
  | Some f => f (dict r) a
  | None => Ok (translate_arcs r a)
  end.

Definition call_exit_counts (r : reporter) : result (gmap Z Z) :=
  match exit_counts_ov (cls r) with
  | Some f => f (dict r)
  | None => Ok (exit_counts r)
  end.

Definition call_missing_arc_description (r : reporter) (start end_ : Z)
    (executed_arcs : option (gset arc)) : result pystr :=
  match missing_arc_description_ov (cls r) with
  | Some f => f (dict r) start end_ executed_arcs
  | None => missing_arc_description r start end_ executed_arcs
  end.

Definition call_source_token_lines (fs : filesystem) (r : reporter)
  : result (list (list token)) :=
  match source_token_lines_ov (cls r) with
  | Some f => f (dict r)
  | None => source_token_lines fs r
  end.

(** *** Comparison and hashing *)

(** The values [other] can be: plain data, an instance of a class that is
    not a [FileReporter], or a reporter. *)
Inductive pyobj : Type :=
| Plain (v : pyval)
| Foreign (cls_name : pystr) (attrs : list (pystr * pyval))
| Reporter (r : reporter).

Definition isinstance_FileReporter (o : pyobj) : bool :=
  match o with
  | Reporter _ => true
  | _ => false
  end.

(** [other.filename]. *)
Definition getattr_filename (o : pyobj) : result pyval :=
  match o with
  | Reporter r => Ok (VStr (filename (dict r)))
  | Foreign _ attrs =>
      match dict_get attrs (lit "filename") with
      | Some v => Ok v
      | None => Raise (AttributeError (lit "filename"))
      end
  | Plain _ => Raise (AttributeError (lit "filename"))
  end.

Definition __eq__ (self : reporter) (other : pyobj) : result bool :=
  if isinstance_FileReporter other then
    f ← getattr_filename other;
    Ok (val_eq (VStr (filename (dict self))) f)
  else Ok false.

Definition __lt__ (self : reporter) (other : pyobj) : result bool :=
  if isinstance_FileReporter other then
    f ← getattr_filename other;
    val_lt (VStr (filename (dict self))) f
  else Ok false.

(** [!=] is the negation of [__eq__]. *)
Definition __ne__ (self : reporter) (other : pyobj) : result bool :=
  b ← __eq__ self other;
  Ok (negb b).

(** The methods [functools.total_ordering] derives from [__lt__]. *)
Definition __gt__ (self : reporter) (other : pyobj) : result bool :=
  l ← __lt__ self other;
  if (l : bool) then Ok false else __ne__ self other.

Definition __le__ (self : reporter) (other : pyobj) : result bool :=
  l ← __lt__ self other;
  if (l : bool) then Ok true else __eq__ self other.

Definition __ge__ (self : reporter) (other : pyobj) : result bool :=
  l ← __lt__ self other;
  Ok (negb l).

(** This object doesn't need to be hashed. *)
Definition __hash__ : option (reporter -> Z) := None.

Definition hash (r : reporter) : result Z :=
  Py.hash __hash__ (class_name (cls r)) r.

(** A set of reporters, a dict keyed by reporters. *)
Definition set_add (s : gmap Z (list (reporter * unit))) (r : reporter)
  : result (gmap Z (list (reporter * unit))) :=
  table_insert __hash__ (class_name (cls r)) s r tt.

Definition dict_setitem {V} (d : gmap Z (list (reporter * V)))
    (r : reporter) (v : V) : result (gmap Z (list (reporter * V))) :=
  table_insert __hash__ (class_name (cls r)) d r v.

Definition dict_getitem {V} (d : gmap Z (list (reporter * V)))
    (r : reporter) : result (list (reporter * V)) :=
  table_lookup __hash__ (class_name (cls r)) d r.

End FileReporter.

(** ** class CoveragePlugin *)

Module CoveragePlugin.

(** What [file_reporter] returns: a reporter, or the string "python". *)
Inductive reporter_choice : Type :=
| UseReporter (r : FileReporter.reporter)
| UsePython.

(** The methods a plug-in class may override. *)
Record plugin_class : Type := {
  class_name : pystr;
  file_tracer_ov :
    option (pystr -> result (option FileTracer.tracer_class));
  file_reporter_ov : option (pystr -> result reporter_choice);
  dynamic_context_ov : option (frame -> result (option pystr));
  find_executable_files_ov : option (pystr -> result (list pystr));
  sys_info_ov : option (result (list (pystr * pystr)));
}.

Definition base : plugin_class := {|
  class_name := lit "CoveragePlugin";
  file_tracer_ov := None;
  file_reporter_ov := None;
  dynamic_context_ov := None;
  find_executable_files_ov := None;
  sys_info_ov := None;
|}.

Definition file_tracer (self : plugin_class) (filename : pystr)
  : option FileTracer.tracer_class := None.

Definition file_reporter (self : plugin_class) (filename : pystr)
  : result reporter_choice :=
  Misc._needs_to_implement (class_name self) (lit "file_reporter").

Definition dynamic_context (self : plugin_class) (fr : frame)
  : option pystr := None.

Definition find_executable_files (self : plugin_class) (src_dir : pystr)
  : list pystr := [].

Definition sys_info (self : plugin_class) : list (pystr * pystr) := [].

(** Method calls on a plug-in object. *)
Definition call_file_tracer (p : plugin_class) (filename : pystr)
  : result (option FileTracer.tracer_class) :=
  match file_tracer_ov p with
  | Some f => f filename
  | None => Ok (file_tracer p filename)
  end.

Definition call_file_reporter (p : plugin_class) (filename : pystr)
  : result reporter_choice :=
  match file_reporter_ov p with
  | Some f => f filename
  | None => file_reporter p filename
  end.

End CoveragePlugin.

(** ** The properties the interface documents *)

Module Props.

Import FileReporter.

(** Concatenate the token texts of each line, join the lines with
    newlines. *)
Definition rejoin (token_lines : list (list token)) : pystr :=
  join [LF] (map (fun line => concat (map snd line)) token_lines).

(** The lines that start an arc, and the distinct targets of a line. *)
Definition arc_starts (a : gset arc) : gset Z := set_map fst a.

Definition arc_targets (a : gset arc) (l : Z) : gset Z :=
  set_map snd (filter (fun p => p.1 = l) a).

(** [exit_counts] agrees with [arcs] on every line that starts an arc. *)
Definition exits_consistent (a : gset arc) (e : gmap Z Z) : Prop :=
  forall l, l ∈ arc_starts a ->
    e !! l = Some (Z.of_nat (size (arc_targets a l))).

Definition reporter_consistent (r : reporter) : Prop :=
  forall a e, call_arcs r = Ok a -> call_exit_counts r = Ok e ->
    exits_consistent a e.

(** A message template with fields in braces, each replaced by the text
    bound to its name. *)
Fixpoint substitute (env : list (pystr * pystr)) (field : option pystr)
    (template : pystr) : pystr :=
  match template with
  | [] => []
  | c :: t =>
      match field with
      | None =>
          if c =? 0x7B then substitute env (Some []) t
          else c :: substitute env None t
      | Some name =>
          if c =? 0x7D
          then default [] (snd <$> find (fun kv => str_eq kv.1 (rev name)) env)
               ++ substitute env None t
          else substitute env (Some (c :: name)) t
      end
  end.

(** Reading a decimal numeral back. *)
Definition digit_value (c : codepoint) : option Z :=
  if (0x30 <=? c) && (c <=? 0x39) then Some (Z.of_N (c - 0x30)) else None.

Fixpoint parse_digits (acc : Z) (s : pystr) : option Z :=
  match s with
  | [] => Some acc
  | c :: s' =>
      match digit_value c with
      | Some d => parse_digits (10 * acc + d)%Z s'
      | None => None
      end
  end.

Definition parse_int (s : pystr) : option Z :=
  match s with
  | [] => None
  | c :: s' =>
      if c =? 0x2D
      then match s' with [] => None | _ => Z.opp <$> parse_digits 0 s' end
      else parse_digits 0 s
  end.

(** A text whose only line boundaries are single newlines and which does
    not end in one. *)
Definition plain_break (c : codepoint) : bool :=
  negb (is_linebreak c) || (c =? LF).

Definition no_break (s : pystr) : bool :=
  forallb (fun c => negb (is_linebreak c)) s.

Definition newline_separated (s : pystr) : Prop :=
  forallb plain_break s = true /\ last s <> Some LF.

(** The token lines of a reporter give its source back. *)
Definition round_trips (fs : filesystem) (r : reporter) : Prop :=
  forall text token_lines,
    call_source fs r = Ok text ->
    call_source_token_lines fs r = Ok token_lines ->
    rejoin token_lines = text.

(** A subclass that declares one arc, from line 1 to line 2, and inherits
    everything else. *)
Definition one_arc : reporter_class := {|
  class_name := lit "OneArcReporter";
  source_ov := None;
  lines_ov := Some (fun _ => Ok {[ 1%Z; 2%Z ]});
  excluded_lines_ov := None;
  translate_lines_ov := None;
  arcs_ov := Some (fun _ => Ok {[ (1%Z, 2%Z) ]});
  no_branch_lines_ov := None;
  translate_arcs_ov := None;
  exit_counts_ov := None;
  missing_arc_description_ov := None;
  source_token_lines_ov := None;
|}.

(** A file system that holds one file. *)
Definition one_file (path : pystr) (content : list Byte.byte) : filesystem :=
  {[ path := content ]}.

(** What [hash] raises for an object of class [cls_name]. *)
Definition unhashable (cls_name : pystr) : exn :=
  TypeError (lit "unhashable type: '" ++ cls_name ++ lit "'").

(** The UTF-8 encoding of a code point and of a text, as [str.encode]
    writes it: the shortest of the one to four byte forms. *)
Definition utf8_encode_cp (c : codepoint) : list N :=
  if c <? 0x80 then [c]
  else if c <? 0x800 then [0xC0 + c / 0x40; 0x80 + c mod 0x40]
  else if c <? 0x10000 then
    [0xE0 + c / 0x1000; 0x80 + (c / 0x40) mod 0x40; 0x80 + c mod 0x40]
  else
    [0xF0 + c / 0x40000; 0x80 + (c / 0x1000) mod 0x40;
     0x80 + (c / 0x40) mod 0x40; 0x80 + c mod 0x40].

Definition utf8_encode (s : pystr) : list N := flat_map utf8_encode_cp s.

(** A Unicode scalar value: at most U+10FFFF and not a surrogate. *)
Definition scalar_value (c : codepoint) : bool :=
  (c <? 0xD800) || ((0xDFFF <? c) && (c <? 0x110000)).

(** A text with every newline written as carriage return, newline. *)
Definition crlf (s : pystr) : pystr :=
  flat_map (fun c => if c =? LF then [CR; LF] else [c]) s.

Definition no_CR (s : pystr) : bool := forallb (fun c => negb (c =? CR)) s.

(** The last character of a text, if any, is not a line boundary. *)
Definition open_ended (s : pystr) : Prop :=
  forall c, last s = Some c -> is_linebreak c = false.

(** A token line of the default implementation: one token of class [txt]
    whose text holds no line boundary. *)
Definition txt_line (line : list token) : Prop :=
  exists t, line = [(txt, t)] /\ no_break t = true.

(** A file system that holds two files. *)
Definition two_files (path1 : pystr) (content1 : list Byte.byte)
    (path2 : pystr) (content2 : list Byte.byte) : filesystem :=
  <[path1 := content1]> (one_file path2 content2).

(** An instance of class [c] that [__init__] built with [fname] and on
    which the further attributes [attrs] were set afterwards. *)
Definition construct (c : reporter_class) (fname : pystr)
    (attrs : list (pystr * pyval)) : reporter :=
  {| cls := c;
     dict := {| filename := filename (__init__ fname);
                attributes := attrs ++ attributes (__init__ fname) |} |}.

(** The least absolute value whose text is over the digit limit. *)
Definition int_str_limit : Z := 10 ^ Z.of_N int_max_str_digits.

End Props.

Import FileReporter Props.

(** ** Facts about the run-time model *)

Section StrOrder.

Lemma str_eq_spec (a b : pystr) : str_eq a b = true <-> a = b.
Proof.
  revert b; induction a as [|x a IH]; intros [|y b]; simpl;
    try (split; [discriminate | congruence]); [tauto|].
  rewrite andb_true_iff, N.eqb_eq, IH.
  split; [intros [-> ->]; reflexivity | intros [= -> ->]; auto].
Qed.

Lemma str_eq_false (a b : pystr) : str_eq a b = false <-> a <> b.
Proof.
  rewrite <- str_eq_spec. destruct (str_eq a b); split; congruence.
Qed.

Lemma str_lt_irrefl (a : pystr) : str_lt a a = false.
Proof.
  induction a as [|x a IH]; simpl; [reflexivity|].
  rewrite N.ltb_irrefl. exact IH.
Qed.

(** Of two different strings exactly one is below the other. *)
Lemma str_lt_total (a b : pystr) :
  a <> b -> str_lt a b = negb (str_lt b a).
Proof.
  revert b; induction a as [|x a IH]; intros [|y b] Hne; simpl;
    try reflexivity; [congruence|].
  destruct (N.ltb_spec x y) as [Hxy|Hxy], (N.ltb_spec y x) as [Hyx|Hyx];
    try reflexivity; try lia.
  assert (x = y) by lia; subst y.
  apply IH. congruence.
Qed.

Lemma str_lt_trans (a b c : pystr) :
  str_lt a b = true -> str_lt b c = true -> str_lt a c = true.
Proof.
  revert b c; induction a as [|x a IH]; intros [|y b] [|z c]; simpl;
    try congruence.
  destruct (N.ltb_spec x y) as [Hxy|Hxy].
  - intros _.
    destruct (N.ltb_spec y z) as [Hyz|Hyz].
    + intros _. destruct (N.ltb_spec x z); [reflexivity | lia].
    + destruct (N.ltb_spec z y); [discriminate|].
      intros _. destruct (N.ltb_spec x z); [reflexivity | lia].
  - destruct (N.ltb_spec y x) as [Hyx|Hyx]; [discriminate|].
    assert (x = y) by lia; subst y.
    destruct (N.ltb_spec x z) as [Hxz|Hxz]; [reflexivity|].
    destruct (N.ltb_spec z x); [discriminate|].
    apply IH.
Qed.

End StrOrder.

Section Lines.

Lemma join_cons (sep p : pystr) (ps : list pystr) :
  ps <> [] -> join sep (p :: ps) = p ++ sep ++ join sep ps.
Proof. destruct ps; [congruence | reflexivity]. Qed.

(** A text that is not empty has at least one line. *)
Lemma splitlines_from_nonempty (cur s : pystr) :
  s <> [] -> splitlines_from cur s <> [].
Proof.
  revert cur; induction s as [|c rest IH]; intros cur Hs; [congruence|].
  simpl. destruct (is_linebreak c); [discriminate|].
  destruct rest as [|c2 rest2].
  - simpl. discriminate.
  - apply IH. discriminate.
Qed.

Lemma plain_break_LF (c : codepoint) :
  plain_break c = true -> is_linebreak c = true -> c = LF.
Proof.
  unfold plain_break. intros H Hb. rewrite Hb in H. simpl in H.
  apply N.eqb_eq in H. exact H.
Qed.

Lemma join_splitlines_from (cur s : pystr) :
  forallb plain_break s = true -> last s <> Some LF ->
  join [LF] (splitlines_from cur s) = rev cur ++ s.
Proof.
  revert cur; induction s as [|c rest IH]; intros cur Hp Hl.
  - simpl. destruct cur as [|x cur]; [reflexivity|].
    simpl. rewrite app_nil_r. reflexivity.
  - simpl in Hp. apply andb_true_iff in Hp as [Hc Hrest].
    assert (Hl' : last rest <> Some LF).
    { destruct rest; [discriminate | exact Hl]. }
    simpl. destruct (is_linebreak c) eqn:Hb.
    + pose proof (plain_break_LF c Hc Hb) as ->.
      destruct rest as [|c2 rest2]; [exfalso; apply Hl; reflexivity|].
      change ((LF =? CR) && (c2 =? LF)) with false. cbv iota.
      rewrite join_cons by (apply splitlines_from_nonempty; discriminate).
      rewrite (IH [] Hrest Hl'). reflexivity.
    + rewrite (IH (c :: cur) Hrest Hl'). simpl.
      rewrite <- app_assoc. reflexivity.
Qed.

(** [splitlines] followed by a join with newlines gives the text back when
    single newlines are its only line boundaries and it does not end in
    one. *)
Lemma join_splitlines (s : pystr) :
  newline_separated s -> join [LF] (splitlines s) = s.
Proof. intros [Hp Hl]. exact (join_splitlines_from [] s Hp Hl). Qed.

Lemma forallb_rev {A} (f : A -> bool) (l : list A) :
  forallb f (rev l) = forallb f l.
Proof.
  induction l as [|x l IH]; [reflexivity|].
  simpl. rewrite forallb_app, IH. simpl.
  rewrite andb_true_r. apply andb_comm.
Qed.

(** No line of [splitlines] holds a line boundary. *)
Lemma splitlines_from_lines (s cur : pystr) :
  no_break cur = true ->
  Forall (fun l => no_break l = true) (splitlines_from cur s).
Proof.
  remember (length s) as n eqn:Hn. revert s cur Hn.
  induction n as [n IH] using lt_wf_ind. intros s cur Hn Hcur.
  assert (Hrev : no_break (rev cur) = true).
  { unfold no_break. rewrite forallb_rev. exact Hcur. }
  destruct s as [|c rest]; simpl.
  - destruct cur; repeat constructor. exact Hrev.
  - destruct (is_linebreak c) eqn:Hb.
    + constructor; [exact Hrev|].
      destruct rest as [|c2 rest2]; [constructor|].
      destruct ((c =? CR) && (c2 =? LF));
        (eapply IH; [| reflexivity | reflexivity]); simpl in Hn; simpl; lia.
    + eapply IH; [| reflexivity |]; [simpl in Hn; lia|].
      simpl. rewrite Hb. exact Hcur.
Qed.

Lemma no_break_plain (l : pystr) :
  no_break l = true -> forallb plain_break l = true.
Proof.
  unfold no_break. rewrite !forallb_forall. intros H c Hc.
  unfold plain_break. rewrite (H c Hc). reflexivity.
Qed.

Lemma join_plain (ls : list pystr) :
  Forall (fun l => no_break l = true) ls ->
  forallb plain_break (join [LF] ls) = true.
Proof.
  induction 1 as [|p ps Hp Hps IH]; [reflexivity|].
  destruct ps as [|q ps].
  - simpl. apply no_break_plain, Hp.
  - rewrite join_cons by discriminate.
    rewrite !forallb_app, IH, (no_break_plain p Hp). reflexivity.
Qed.

(** A final newline is dropped. *)
Lemma join_splitlines_trailing (cur s : pystr) :
  forallb plain_break s = true ->
  join [LF] (splitlines_from cur (s ++ [LF])) = rev cur ++ s.
Proof.
  revert cur; induction s as [|c rest IH]; intros cur Hp.
  - simpl. rewrite app_nil_r. reflexivity.
  - simpl in Hp. apply andb_true_iff in Hp as [Hc Hrest].
    simpl. destruct (is_linebreak c) eqn:Hb.
    + pose proof (plain_break_LF c Hc Hb) as ->.
      change (LF =? CR) with false. cbv beta iota.
      assert (Hne : rest ++ [LF] <> []) by (destruct rest; discriminate).
      assert (Hm : forall t : pystr, t <> [] ->
                match t with
                | [] => []
                | c2 :: rest2 =>
                    if false && (c2 =? LF) then splitlines_from [] rest2
                    else splitlines_from [] t
                end = splitlines_from [] t).
      { intros [|? ?] Ht; [congruence | reflexivity]. }
      rewrite (Hm _ Hne).
      rewrite join_cons by (apply splitlines_from_nonempty; exact Hne).
      rewrite (IH [] Hrest). reflexivity.
    + rewrite (IH (c :: cur) Hrest). simpl.
      rewrite <- app_assoc. reflexivity.
Qed.

(** [splitlines] followed by a join with newlines gives the text back only
    when the text is newline separated. *)
Lemma join_splitlines_iff (s : pystr) :
  join [LF] (splitlines s) = s <-> newline_separated s.
Proof.
  split; [|apply join_splitlines].
  intros H.
  assert (Hp : forallb plain_break s = true).
  { rewrite <- H. apply join_plain, splitlines_from_lines. reflexivity. }
  split; [exact Hp|].
  intros Hl. apply last_Some in Hl as [s' ->].
  rewrite forallb_app in Hp. apply andb_true_iff in Hp as [Hp _].
  unfold splitlines in H. rewrite (join_splitlines_trailing [] s' Hp) in H.
  simpl in H. apply (f_equal (@length _)) in H.
  rewrite length_app in H. simpl in H. lia.
Qed.

Lemma rejoin_txt_lines (ls : list pystr) :
  rejoin (map (fun line => [(txt, line)]) ls) = join [LF] ls.
Proof.
  unfold rejoin. f_equal. rewrite map_map. simpl.
  induction ls as [|l ls IH]; [reflexivity|].
  simpl. rewrite app_nil_r. f_equal. exact IH.
Qed.

End Lines.

Section DecimalText.

Local Open Scope Z_scope.

Local Ltac digit_step IH :=
  match goal with
  | |- context [digit_value (digit ?k)] =>
      let v := eval vm_compute in (digit_value (digit k)) in
      change (digit_value (digit k)) with v; cbv beta iota
  end.

Lemma parse_digits_acc (u : Decimal.uint) (p : positive) :
  parse_digits (Z.pos p) (uint_str u) = Some (Z.pos (Pos.of_uint_acc u p)).
Proof.
  revert p; induction u as [|u IH|u IH|u IH|u IH|u IH|u IH|u IH|u IH|u IH|u IH];
    intros p; [reflexivity|..];
    cbn [uint_str parse_digits Pos.of_uint_acc]; digit_step IH;
    rewrite <- IH; f_equal; lia.
Qed.

Lemma parse_digits_uint (u : Decimal.uint) :
  parse_digits 0 (uint_str u) = Some (Z.of_uint u).
Proof.
  induction u as [|u IH|u IH|u IH|u IH|u IH|u IH|u IH|u IH|u IH|u IH];
    [reflexivity|..];
    cbn [uint_str parse_digits]; digit_step IH;
    [exact IH | apply parse_digits_acc ..].
Qed.

Lemma uint_str_head (u : Decimal.uint) :
  u <> Decimal.Nil ->
  exists c s, uint_str u = c :: s /\ (c =? 0x2D)%N = false.
Proof.
  destruct u; [congruence|..]; intros _; eexists _, _; split;
    try reflexivity; reflexivity.
Qed.

(** The decimal text of an integer reads back as that integer. *)
Lemma parse_int_str (z : Z) : parse_int (int_str z) = Some z.
Proof.
  pose proof (DecimalZ.of_to z) as Hz.
  unfold int_str. destruct z as [|p|p]; simpl Z.to_int in *.
  - reflexivity.
  - destruct (uint_str_head _ (DecimalPos.Unsigned.to_uint_nonnil p))
      as (c & s & Hs & Hc).
    unfold parse_int. rewrite Hs, Hc, <- Hs, parse_digits_uint.
    f_equal. exact Hz.
  - destruct (uint_str_head _ (DecimalPos.Unsigned.to_uint_nonnil p))
      as (c & s & Hs & Hc).
    unfold parse_int. rewrite N.eqb_refl, Hs, <- Hs, parse_digits_uint.
    simpl. f_equal. exact Hz.
Qed.

End DecimalText.

(** ** The reporter's token lines *)

(** X1: when the token lines are the default ones, the round trip holds exactly
    for the sources whose only line boundaries are single newlines and which
    do not end in one, whatever [source] is. *)
Lemma round_trip_newline_separated (fs : filesystem) (r : reporter)
    (text : pystr) :
  source_token_lines_ov (cls r) = None ->
  call_source fs r = Ok text ->
  call_source_token_lines fs r
    = Ok (map (fun line => [(txt, line)]) (splitlines text))
  /\ (round_trips fs r <-> newline_separated text).
Proof.
  intros Hov Hsrc.
  assert (Htl : call_source_token_lines fs r
                = Ok (map (fun line => [(txt, line)]) (splitlines text))).
  { unfold call_source_token_lines, source_token_lines.
    rewrite Hov, Hsrc. reflexivity. }
  split; [exact Htl|].
  rewrite <- join_splitlines_iff, <- rejoin_txt_lines. split.
  - intros Hrt. exact (Hrt _ _ Hsrc Htl).
  - intros Hj text' tl Hsrc' Htl'.
    rewrite Hsrc in Hsrc'. rewrite Htl in Htl'.
    injection Hsrc' as <-. injection Htl' as <-. exact Hj.
Qed.

(** C1: the default [source] and [source_token_lines] on a file holding
    the two bytes of "a" followed by a newline: the source is that text, the
    only token line is [('txt', 'a')], and joining gives "a" without the
    newline, so the round trip does not give the source back. *)
Theorem source_token_lines_final_newline :
  call_source (one_file (lit "foo.py") [Byte.x61; Byte.x0a])
              (new (lit "foo.py"))
    = Ok (lit "a" ++ [LF])
  /\ call_source_token_lines (one_file (lit "foo.py") [Byte.x61; Byte.x0a])
                             (new (lit "foo.py"))
    = Ok [[(txt, lit "a")]]
  /\ rejoin [[(txt, lit "a")]] = lit "a"
  /\ ~ round_trips (one_file (lit "foo.py") [Byte.x61; Byte.x0a])
                   (new (lit "foo.py")).
Proof.
  set (fs := one_file _ _). set (r := new _).
  assert (Hsrc : call_source fs r = Ok (lit "a" ++ [LF])) by reflexivity.
  assert (Htl : call_source_token_lines fs r = Ok [[(txt, lit "a")]])
    by reflexivity.
  repeat split; try assumption; try reflexivity.
  intros Hrt. specialize (Hrt _ _ Hsrc Htl). discriminate Hrt.
Qed.

(** ** Equality and ordering *)

(** C2: two reporters are equal exactly when their file names are equal.
    [__init__] stores the file name it is given, so a reporter constructed
    with foo.py equals every reporter constructed with foo.py, of whatever
    class and with whatever other attributes set on it, and differs from
    every reporter constructed with bar.py. *)
Theorem eq_iff_same_filename (a b : reporter) :
  __eq__ a (Reporter b)
    = Ok (bool_decide (filename (dict a) = filename (dict b)))
  /\ __ne__ a (Reporter b)
    = Ok (bool_decide (filename (dict a) <> filename (dict b)))
  /\ (forall f, filename (__init__ f) = f /\ filename (dict (new f)) = f)
  /\ (forall f1 f2,
        __eq__ (new f1) (Reporter (new f2)) = Ok (bool_decide (f1 = f2)))
  /\ (forall c1 c2 s1 s2 f1 f2,
        __eq__ (construct c1 f1 s1) (Reporter (construct c2 f2 s2))
        = Ok (bool_decide (f1 = f2)))
  /\ (forall c1 c2 s1 s2,
        __eq__ (construct c1 (lit "foo.py") s1)
               (Reporter (construct c2 (lit "foo.py") s2)) = Ok true
        /\ __eq__ (construct c1 (lit "foo.py") s1)
                  (Reporter (construct c2 (lit "bar.py") s2)) = Ok false
        /\ __ne__ (construct c1 (lit "foo.py") s1)
                  (Reporter (construct c2 (lit "bar.py") s2)) = Ok true)
  /\ __eq__ (new (lit "foo.py")) (Reporter (new (lit "foo.py"))) = Ok true
  /\ __eq__ (new (lit "foo.py")) (Reporter (new (lit "bar.py"))) = Ok false.
Proof.
  assert (Heq : forall x y : reporter,
    __eq__ x (Reporter y)
      = Ok (bool_decide (filename (dict x) = filename (dict y)))).
  { intros x y. unfold __eq__. simpl. f_equal.
    destruct (str_eq _ _) eqn:E.
    - apply str_eq_spec in E. rewrite bool_decide_eq_true_2; auto.
    - apply str_eq_false in E. rewrite bool_decide_eq_false_2; auto. }
  split; [apply Heq|]. split; [|split; [|split; [|split; [|split]]]].
  - unfold __ne__. rewrite Heq. simpl. f_equal.
    destruct (decide (filename (dict a) = filename (dict b))) as [E|E].
    + rewrite bool_decide_eq_true_2, bool_decide_eq_false_2; auto.
    + rewrite bool_decide_eq_false_2, bool_decide_eq_true_2; auto.
  - intros f. split; reflexivity.
  - intros f1 f2. rewrite Heq. reflexivity.
  - intros c1 c2 s1 s2 f1 f2. rewrite Heq. reflexivity.
  - intros c1 c2 s1 s2. repeat split; reflexivity.
  - split; reflexivity.
Qed.

Lemma lt_reporters (a b : reporter) :
  __lt__ a (Reporter b) = Ok (str_lt (filename (dict a)) (filename (dict b))).
Proof. reflexivity. Qed.

(** The comparisons [functools.total_ordering] derives agree with the order
    of the file names. *)
Lemma derived_comparisons (a b : reporter) :
  __gt__ a (Reporter b) = Ok (str_lt (filename (dict b)) (filename (dict a)))
  /\ __le__ a (Reporter b)
     = Ok (negb (str_lt (filename (dict b)) (filename (dict a))))
  /\ __ge__ a (Reporter b)
     = Ok (negb (str_lt (filename (dict a)) (filename (dict b)))).
Proof.
  unfold __gt__, __le__, __ge__, __ne__. rewrite !lt_reporters.
  unfold __eq__. simpl.
  destruct (decide (filename (dict a) = filename (dict b))) as [E|E].
  - rewrite E, str_lt_irrefl. simpl.
    rewrite (proj2 (str_eq_spec _ _) eq_refl). repeat split.
  - rewrite (str_lt_total _ _ E), (proj2 (str_eq_false _ _) E).
    destruct (str_lt (filename (dict b)) (filename (dict a))); repeat split.
Qed.

(** C3: [<] on reporters is the order of their file names, a strict total
    order: of two reporters with different file names exactly one is below
    the other, and the order is transitive. *)
Theorem lt_strict_total_order (a b c : reporter) :
  filename (dict a) <> filename (dict b) ->
  filename (dict b) <> filename (dict c) ->
  filename (dict a) <> filename (dict c) ->
  __lt__ a (Reporter b) = Ok (str_lt (filename (dict a)) (filename (dict b)))
  /\ ((__lt__ a (Reporter b) = Ok true /\ __lt__ b (Reporter a) = Ok false)
      \/ (__lt__ a (Reporter b) = Ok false /\ __lt__ b (Reporter a) = Ok true))
  /\ (__lt__ a (Reporter b) = Ok true -> __lt__ b (Reporter c) = Ok true ->
      __lt__ a (Reporter c) = Ok true).
Proof.
  intros Hab Hbc Hac. rewrite !lt_reporters.
  split; [reflexivity|]. split.
  - rewrite (str_lt_total _ _ Hab).
    destruct (str_lt (filename (dict b)) (filename (dict a))); simpl; auto.
  - intros [= H1] [= H2]. f_equal. eapply str_lt_trans; eassumption.
Qed.

Lemma lt_strict_total_order_witness :
  (lit "a.py" <> lit "b.py" /\ lit "b.py" <> lit "c.py"
   /\ lit "a.py" <> lit "c.py")
  /\ __lt__ (new (lit "a.py")) (Reporter (new (lit "b.py")))
     = Ok (str_lt (lit "a.py") (lit "b.py"))
  /\ ((__lt__ (new (lit "a.py")) (Reporter (new (lit "b.py"))) = Ok true
       /\ __lt__ (new (lit "b.py")) (Reporter (new (lit "a.py"))) = Ok false)
      \/ (__lt__ (new (lit "a.py")) (Reporter (new (lit "b.py"))) = Ok false
          /\ __lt__ (new (lit "b.py")) (Reporter (new (lit "a.py"))) = Ok true))
  /\ (__lt__ (new (lit "a.py")) (Reporter (new (lit "b.py"))) = Ok true ->
      __lt__ (new (lit "b.py")) (Reporter (new (lit "c.py"))) = Ok true ->
      __lt__ (new (lit "a.py")) (Reporter (new (lit "c.py"))) = Ok true).
Proof.
  split.
  - repeat split; vm_compute; discriminate.
  - apply (lt_strict_total_order (new (lit "a.py")) (new (lit "b.py"))
             (new (lit "c.py"))); vm_compute; discriminate.
Defined.

(** C10: against a value that is not a [FileReporter], [==] and [<] return
    False without raising, whatever the reporter's file name and whatever
    attributes the other value has. *)
Theorem compare_with_non_reporter (self : reporter) (other : pyobj) :
  isinstance_FileReporter other = false ->
  __eq__ self other = Ok false /\ __lt__ self other = Ok false.
Proof.
  intros Hother. unfold __eq__, __lt__. rewrite Hother. split; reflexivity.
Qed.

Lemma compare_with_non_reporter_witness :
  isinstance_FileReporter
    (Foreign (lit "Path") [(lit "filename", VStr (lit "foo.py"))]) = false
  /\ __eq__ (new (lit "foo.py"))
       (Foreign (lit "Path") [(lit "filename", VStr (lit "foo.py"))])
     = Ok false
  /\ __lt__ (new (lit "foo.py"))
       (Foreign (lit "Path") [(lit "filename", VStr (lit "foo.py"))])
     = Ok false.
Proof.
  split; [reflexivity|].
  apply (compare_with_non_reporter (new (lit "foo.py"))
           (Foreign (lit "Path") [(lit "filename", VStr (lit "foo.py"))])).
  reflexivity.
Defined.

(** C9: the hash slot of [FileReporter] is None, so [hash] of a reporter
    raises TypeError, and so does putting it in a set or using it as a
    dictionary key. *)
Theorem reporters_unhashable (r : reporter) :
  __hash__ = None
  /\ hash r = Raise (unhashable (class_name (cls r)))
  /\ (forall s, set_add s r = Raise (unhashable (class_name (cls r))))
  /\ (forall V (d : gmap Z (list (reporter * V))) (v : V),
        dict_setitem d r v = Raise (unhashable (class_name (cls r))))
  /\ (forall V (d : gmap Z (list (reporter * V))),
        dict_getitem d r = Raise (unhashable (class_name (cls r)))).
Proof. repeat split. Qed.

(** ** Required methods *)

(** C5: a reporter whose class does not override [lines], and a plug-in
    whose class does not override [file_reporter], raise the contract
    violation naming the class and the method; nothing is returned. *)
Theorem required_methods_raise (r : reporter)
    (p : CoveragePlugin.plugin_class) (path : pystr) :
  lines_ov (cls r) = None ->
  CoveragePlugin.file_reporter_ov p = None ->
  call_lines r
    = Raise (PluginContractViolation (class_name (cls r)) (lit "lines"))
  /\ CoveragePlugin.call_file_reporter p path
    = Raise (PluginContractViolation (CoveragePlugin.class_name p)
                                     (lit "file_reporter")).
Proof.
  intros Hr Hp. unfold call_lines, CoveragePlugin.call_file_reporter.
  rewrite Hr, Hp. split; reflexivity.
Qed.

Lemma required_methods_raise_witness :
  (lines_ov (cls (new (lit "gen.xyz"))) = None
   /\ CoveragePlugin.file_reporter_ov CoveragePlugin.base = None)
  /\ call_lines (new (lit "gen.xyz"))
     = Raise (PluginContractViolation (lit "FileReporter") (lit "lines"))
  /\ CoveragePlugin.call_file_reporter CoveragePlugin.base (lit "gen.xyz")
     = Raise (PluginContractViolation (lit "CoveragePlugin")
                                      (lit "file_reporter")).
Proof.
  split; [split; reflexivity|].
  apply (required_methods_raise (new (lit "gen.xyz")) CoveragePlugin.base
           (lit "gen.xyz")); reflexivity.
Defined.

(** ** Defaults of the reporter and of the tracer *)

(** ** The digit limit of int formatting *)

Section DigitLimit.

Local Open Scope Z_scope.

Lemma digit_value_range (c : codepoint) (d : Z) :
  digit_value c = Some d -> 0 <= d <= 9.
Proof.
  unfold digit_value.
  destruct (N.leb_spec 0x30 c), (N.leb_spec c 0x39); simpl; try discriminate.
  intros [= <-]. lia.
Qed.

(** The value read from a digit text lies between the accumulator shifted
    by the length of the text and the next such value. *)
Lemma parse_digits_bounds (s : pystr) (acc v : Z) :
  0 <= acc -> parse_digits acc s = Some v ->
  acc * 10 ^ Z.of_nat (length s) <= v < (acc + 1) * 10 ^ Z.of_nat (length s).
Proof.
  revert acc; induction s as [|c s IH]; intros acc Hacc H.
  - simpl in *. injection H as <-. lia.
  - cbn [parse_digits] in H.
    destruct (digit_value c) as [d|] eqn:Hd; [|discriminate].
    apply digit_value_range in Hd.
    apply IH in H; [|lia].
    cbn [length]. rewrite Nat2Z.inj_succ, Z.pow_succ_r by lia.
    assert (0 < 10 ^ Z.of_nat (length s)) by (apply Z.pow_pos_nonneg; lia).
    nia.
Qed.

(** The decimal numeral of a positive number does not start with 0. *)
Lemma to_uint_head (p : positive) :
  exists c s d, uint_str (Pos.to_uint p) = c :: s
    /\ digit_value c = Some d /\ 1 <= d.
Proof.
  pose proof (DecimalPos.Unsigned.to_of (Pos.to_uint p)) as Hn.
  rewrite DecimalPos.Unsigned.of_to in Hn. simpl in Hn.
  pose proof (DecimalPos.Unsigned.to_uint_nonzero p) as Hz.
  assert (Hh : nzhead (Pos.to_uint p) = Pos.to_uint p).
  { unfold unorm in Hn. destruct (nzhead (Pos.to_uint p)); congruence. }
  pose proof (DecimalFacts.nzhead_nonzero (Pos.to_uint p)) as Hnz. rewrite Hh in Hnz.
  pose proof (DecimalPos.Unsigned.to_uint_nonnil p) as Hnil.
  destruct (Pos.to_uint p) as [|u|u|u|u|u|u|u|u|u|u];
    [congruence | exfalso; exact (Hnz u eq_refl) |..];
    eexists _, _, _; (split; [reflexivity|]);
    (split; [reflexivity | vm_compute; discriminate]).
Qed.

Lemma pos_digits_bounds (p : positive) :
  10 ^ (Z.of_nat (length (uint_str (Pos.to_uint p))) - 1) <= Z.pos p
  < 10 ^ Z.of_nat (length (uint_str (Pos.to_uint p))).
Proof.
  pose proof (parse_digits_uint (Pos.to_uint p)) as Hv.
  assert (Hp : Z.of_uint (Pos.to_uint p) = Z.pos p).
  { unfold Z.of_uint. rewrite DecimalPos.Unsigned.of_to. reflexivity. }
  rewrite Hp in Hv. split.
  - destruct (to_uint_head p) as (c & s & d & Hs & Hd & Hd1).
    rewrite Hs in Hv |- *. cbn [parse_digits] in Hv. rewrite Hd in Hv.
    apply parse_digits_bounds in Hv; [|lia].
    cbn [length]. rewrite Nat2Z.inj_succ.
    replace (Z.succ (Z.of_nat (length s)) - 1) with (Z.of_nat (length s))
      by lia.
    assert (0 < 10 ^ Z.of_nat (length s)) by (apply Z.pow_pos_nonneg; lia).
    nia.
  - apply parse_digits_bounds in Hv; lia.
Qed.

(** An int has at most [n] digits exactly when its absolute value is below
    the [n]-th power of ten. *)
Lemma int_digits_le (z : Z) (n : nat) :
  (1 <= n)%nat ->
  (length (int_digits z) <= n)%nat <-> Z.abs z < 10 ^ Z.of_nat n.
Proof.
  intros Hn. unfold int_digits. destruct z as [|p|p]; cbn [Z.to_int Z.abs].
  - simpl. split; [intros _; apply Z.pow_pos_nonneg; lia | lia].
  - pose proof (pos_digits_bounds p) as [Hlo Hhi]. split.
    + intros Hl. eapply Z.lt_le_trans; [exact Hhi|].
      apply Z.pow_le_mono_r; lia.
    + intros Hlt.
      assert (H : 10 ^ (Z.of_nat (length (uint_str (Pos.to_uint p))) - 1)
                  < 10 ^ Z.of_nat n) by lia.
      apply Z.pow_lt_mono_r_iff in H; lia.
  - pose proof (pos_digits_bounds p) as [Hlo Hhi]. split.
    + intros Hl. eapply Z.lt_le_trans; [exact Hhi|].
      apply Z.pow_le_mono_r; lia.
    + intros Hlt.
      assert (H : 10 ^ (Z.of_nat (length (uint_str (Pos.to_uint p))) - 1)
                  < 10 ^ Z.of_nat n) by lia.
      apply Z.pow_lt_mono_r_iff in H; lia.
Qed.

Lemma format_int_ok (z : Z) :
  Z.abs z < int_str_limit -> format_int z = Ok (int_str z).
Proof.
  intros H. unfold format_int.
  destruct (N.ltb_spec int_max_str_digits (N.of_nat (length (int_digits z))))
    as [Hlt|Hge]; [|reflexivity].
  exfalso. unfold int_str_limit in H.
  replace (Z.of_N int_max_str_digits)
    with (Z.of_nat (N.to_nat int_max_str_digits)) in H
    by (apply N_nat_Z).
  apply int_digits_le in H; [lia|].
  unfold int_max_str_digits. lia.
Qed.

Lemma format_int_raises (z : Z) :
  int_str_limit <= Z.abs z -> format_int z = Raise int_limit_error.
Proof.
  intros H. unfold format_int.
  destruct (N.ltb_spec int_max_str_digits (N.of_nat (length (int_digits z))))
    as [Hlt|Hge]; [reflexivity|].
  exfalso. unfold int_str_limit in H.
  replace (Z.of_N int_max_str_digits)
    with (Z.of_nat (N.to_nat int_max_str_digits)) in H
    by (apply N_nat_Z).
  assert (Hd : (length (int_digits z) <= N.to_nat int_max_str_digits)%nat)
    by lia.
  apply int_digits_le in Hd; [lia|].
  unfold int_max_str_digits. lia.
Qed.

Lemma format_int_inv (z : Z) (t : pystr) :
  format_int z = Ok t -> t = int_str z.
Proof.
  unfold format_int.
  destruct (int_max_str_digits <? N.of_nat (length (int_digits z)))%N;
    [discriminate | congruence].
Qed.

(** Past the digit limit the description is not returned. *)
Lemma missing_arc_description_over_limit (r : reporter) (start end_ : Z)
    (executed_arcs : option (gset arc)) :
  int_str_limit <= Z.abs start \/ int_str_limit <= Z.abs end_ ->
  missing_arc_description r start end_ executed_arcs = Raise int_limit_error.
Proof.
  intros H. unfold missing_arc_description.
  destruct (Z.lt_ge_cases (Z.abs start) int_str_limit) as [Hs|Hs].
  - destruct H as [H|H]; [lia|].
    rewrite (format_int_ok start Hs), (format_int_raises end_ H).
    reflexivity.
  - rewrite (format_int_raises start Hs). reflexivity.
Qed.

End DigitLimit.

(** C6, as stated: the description is not returned for every pair of
    integers.  For start = 10^4300, an int of 4301 digits, the f-string
    raises ValueError. *)
Lemma missing_arc_description_limit :
  missing_arc_description (new (lit "foo.py")) (10 ^ 4300) 1 None
    = Raise int_limit_error
  /\ ~ (forall (r : reporter) (start end_ : Z)
               (executed_arcs : option (gset arc)),
          missing_arc_description r start end_ executed_arcs
          = Ok (substitute
                  [(lit "start", int_str start); (lit "end", int_str end_)]
                  None (lit "Line {start} didn't jump to line {end}"))).
Proof.
  assert (H : missing_arc_description (new (lit "foo.py")) (10 ^ 4300) 1 None
              = Raise int_limit_error).
  { apply missing_arc_description_over_limit. left.
    unfold int_str_limit.
    change (Z.of_N int_max_str_digits) with 4300%Z.
    rewrite Z.abs_eq by (apply Z.pow_nonneg; discriminate).
    apply Z.le_refl. }
  split; [exact H|].
  intros Hall. rewrite Hall in H. discriminate H.
Qed.

(** C6, amended: for integers of absolute value below 10^4300 the default
    description is the template with the decimal texts of [start] and [end]
    in place of its two fields; for 5 and -1 and no executed arcs it is
    "Line 5 didn't jump to line -1". *)
Theorem missing_arc_description_text (r : reporter) (start end_ : Z)
    (executed_arcs : option (gset arc)) :
  (Z.abs start < int_str_limit)%Z ->
  (Z.abs end_ < int_str_limit)%Z ->
  missing_arc_description r start end_ executed_arcs
    = Ok (substitute
            [(lit "start", int_str start); (lit "end", int_str end_)]
            None (lit "Line {start} didn't jump to line {end}"))
  /\ parse_int (int_str start) = Some start
  /\ parse_int (int_str end_) = Some end_
  /\ call_missing_arc_description (new (filename (dict r))) start end_
       executed_arcs
     = missing_arc_description r start end_ executed_arcs
  /\ missing_arc_description r 5 (-1) None
     = Ok (lit "Line 5 didn't jump to line -1").
Proof.
  intros Hs He. split; [|split; [|split; [|split]]].
  - unfold missing_arc_description.
    rewrite (format_int_ok start Hs), (format_int_ok end_ He).
    cbn [mbind result_bind]. f_equal.
    rewrite <- (app_nil_r (int_str end_)) at 1. reflexivity.
  - apply parse_int_str.
  - apply parse_int_str.
  - reflexivity.
  - reflexivity.
Qed.

Lemma missing_arc_description_text_witness :
  ((Z.abs 5 < int_str_limit)%Z /\ (Z.abs (-1) < int_str_limit)%Z)
  /\ missing_arc_description (new (lit "foo.py")) 5 (-1) None
     = Ok (substitute
             [(lit "start", int_str 5); (lit "end", int_str (-1))]
             None (lit "Line {start} didn't jump to line {end}"))
  /\ parse_int (int_str 5) = Some 5%Z
  /\ parse_int (int_str (-1)) = Some (-1)%Z
  /\ call_missing_arc_description
       (new (filename (dict (new (lit "foo.py"))))) 5 (-1) None
     = missing_arc_description (new (lit "foo.py")) 5 (-1) None
  /\ missing_arc_description (new (lit "foo.py")) 5 (-1) None
     = Ok (lit "Line 5 didn't jump to line -1").
Proof.
  assert (H5 : (Z.abs 5 < int_str_limit)%Z) by (vm_compute; reflexivity).
  assert (H1 : (Z.abs (-1) < int_str_limit)%Z) by (vm_compute; reflexivity).
  split; [split; assumption|].
  exact (missing_arc_description_text (new (lit "foo.py")) 5 (-1) None H5 H1).
Defined.

(** C7: the default [translate_lines] returns the set of the recorded
    lines, for every sequence that enumerates it, and the default
    [translate_arcs] returns the recorded arcs. *)
Theorem translate_identity (r : reporter) (S : gset Z) (recorded : list Z)
    (A : gset arc) :
  (forall x, x ∈ recorded <-> x ∈ S) ->
  translate_lines r recorded = S
  /\ translate_arcs r A = A
  /\ call_translate_lines (new (filename (dict r))) recorded = Ok S
  /\ call_translate_arcs (new (filename (dict r))) A = Ok A.
Proof.
  intros Henum.
  assert (Hl : translate_lines r recorded = S).
  { unfold translate_lines. apply set_eq. intros x.
    rewrite elem_of_list_to_set. apply Henum. }
  repeat split; try exact Hl.
  unfold call_translate_lines. simpl. f_equal. exact Hl.
Qed.

Lemma scenario_lines_enumerated (x : Z) :
  x ∈ [15; 10; 12; 10]%Z <-> x ∈ ({[ 10; 12; 15 ]}%Z : gset Z).
Proof.
  rewrite !elem_of_cons, elem_of_nil, !elem_of_union, !elem_of_singleton.
  tauto.
Qed.

Lemma translate_identity_witness :
  (forall x : Z, x ∈ [15; 10; 12; 10]%Z <-> x ∈ ({[ 10; 12; 15 ]}%Z : gset Z))
  /\ translate_lines (new (lit "orig.xyz")) [15; 10; 12; 10]%Z
     = ({[ 10; 12; 15 ]}%Z : gset Z)
  /\ translate_arcs (new (lit "orig.xyz")) {[ (10, 12)%Z ]} = {[ (10, 12)%Z ]}
  /\ call_translate_lines (new (lit "orig.xyz")) [15; 10; 12; 10]%Z
     = Ok ({[ 10; 12; 15 ]}%Z : gset Z)
  /\ call_translate_arcs (new (lit "orig.xyz")) {[ (10, 12)%Z ]}
     = Ok {[ (10, 12)%Z ]}.
Proof.
  split; [exact scenario_lines_enumerated|].
  exact (translate_identity (new (lit "orig.xyz")) {[ 10; 12; 15 ]}%Z
           [15; 10; 12; 10]%Z {[ (10, 12)%Z ]} scenario_lines_enumerated).
Defined.

(** C8: the default [line_number_range] returns the frame's line number
    twice, for every frame. *)
Theorem line_number_range_default (t : FileTracer.tracer_class) (fr : frame) :
  FileTracer.line_number_range t fr = (f_lineno fr, f_lineno fr)
  /\ fst (FileTracer.line_number_range t fr)
     = snd (FileTracer.line_number_range t fr)
  /\ FileTracer.call_line_number_range FileTracer.base fr
     = Ok (f_lineno fr, f_lineno fr).
Proof. repeat split. Qed.

(** ** Exit counts *)

(** C4, as stated: not every reporter keeps [exit_counts] consistent with
    [arcs].  A subclass that overrides [arcs] alone has an arc from line 1
    and no exit count for line 1. *)
Lemma exit_counts_not_always_consistent :
  ~ (forall r : reporter, reporter_consistent r).
Proof.
  intros H.
  assert (Hc : exits_consistent ({[ (1%Z, 2%Z) ]} : gset arc) (∅ : gmap Z Z)).
  { apply (H {| cls := one_arc; dict := __init__ (lit "foo.py") |});
      reflexivity. }
  assert (Hin : 1%Z ∈ arc_starts {[ (1%Z, 2%Z) ]}).
  { unfold arc_starts. apply elem_of_map. exists (1%Z, 2%Z).
    split; [reflexivity | apply elem_of_singleton; reflexivity]. }
  specialize (Hc 1%Z Hin). rewrite lookup_empty in Hc. discriminate Hc.
Qed.

(** C4, amended: a reporter that inherits the default [arcs] has no arcs,
    so its [exit_counts] is consistent with them; the default [arcs] is the
    empty set and the default [exit_counts] the empty mapping. *)
Theorem default_arcs_exit_counts_consistent (r : reporter) :
  arcs_ov (cls r) = None ->
  call_arcs r = Ok ∅
  /\ reporter_consistent r
  /\ arcs r = ∅
  /\ exit_counts r = ∅.
Proof.
  intros Hov.
  assert (Ha : call_arcs r = Ok ∅).
  { unfold call_arcs. rewrite Hov. reflexivity. }
  repeat split; try exact Ha.
  intros a e Ha' _ l Hl. rewrite Ha in Ha'. injection Ha' as <-.
  unfold arc_starts in Hl. apply elem_of_map in Hl as (p & _ & Hp).
  apply not_elem_of_empty in Hp. contradiction.
Qed.

Lemma default_arcs_exit_counts_consistent_witness :
  arcs_ov (cls (new (lit "foo.py"))) = None
  /\ call_arcs (new (lit "foo.py")) = Ok ∅
  /\ reporter_consistent (new (lit "foo.py"))
  /\ arcs (new (lit "foo.py")) = ∅
  /\ exit_counts (new (lit "foo.py")) = ∅.
Proof.
  split; [reflexivity|].
  apply (default_arcs_exit_counts_consistent (new (lit "foo.py"))).
  reflexivity.
Defined.

(** ** More on the token lines *)

Section TokenLines.

Lemma default_token_lines (fs : filesystem) (r : reporter) (text : pystr) :
  source_token_lines_ov (cls r) = None ->
  call_source fs r = Ok text ->
  call_source_token_lines fs r
    = Ok (map (fun line => [(txt, line)]) (splitlines text)).
Proof.
  intros Hov Hsrc. unfold call_source_token_lines, source_token_lines.
  rewrite Hov, Hsrc. reflexivity.
Qed.

(** A final newline after an open-ended text adds no line. *)
Lemma splitlines_from_final_newline (s cur : pystr) :
  cur <> [] \/ s <> [] -> open_ended s ->
  splitlines_from cur (s ++ [LF]) = splitlines_from cur s.
Proof.
  remember (length s) as n eqn:Hn. revert s cur Hn.
  induction n as [n IH] using lt_wf_ind. intros s cur Hn Hne Hopen.
  destruct s as [|c rest].
  - destruct Hne as [Hne|Hne]; [|congruence].
    destruct cur; [congruence | reflexivity].
  - assert (Hrest : rest <> [] -> open_ended rest).
    { intros Hr c' Hc'. apply Hopen. destruct rest; [congruence | exact Hc']. }
    cbn [app splitlines_from]. destruct (is_linebreak c) eqn:Hb.
    + f_equal. destruct rest as [|c2 rest2].
      { rewrite (Hopen c eq_refl) in Hb. discriminate. }
      cbn [app]. destruct ((c =? CR) && (c2 =? LF)) eqn:Hcr.
      * assert (Hne2 : rest2 <> []).
        { intros ->. apply andb_true_iff in Hcr as [_ H2].
          apply N.eqb_eq in H2. subst c2.
          specialize (Hopen LF eq_refl). discriminate Hopen. }
        apply (IH (length rest2)); [simpl in Hn; lia | reflexivity | auto |].
        intros c' Hc'. apply Hopen. destruct rest2; [congruence | exact Hc'].
      * assert (Hlt : (length (c2 :: rest2) < n)%nat) by (simpl in *; lia).
        apply (IH _ Hlt (c2 :: rest2) [] eq_refl); [right; discriminate|].
        apply Hrest. discriminate.
    + apply (IH (length rest)); [simpl in Hn; lia | reflexivity | left; discriminate |].
      intros c' Hc'. apply Hopen. destruct rest; [discriminate | exact Hc'].
Qed.

Lemma crlf_nil (s : pystr) : crlf s = [] -> s = [].
Proof.
  destruct s as [|c s]; [reflexivity|].
  unfold crlf. simpl. destruct (c =? LF); discriminate.
Qed.

(** Windows line ends split like newlines. *)
Lemma splitlines_from_crlf (s cur : pystr) :
  no_CR s = true -> splitlines_from cur (crlf s) = splitlines_from cur s.
Proof.
  revert cur; induction s as [|c rest IH]; intros cur Hcr; [reflexivity|].
  simpl in Hcr. apply andb_true_iff in Hcr as [Hc Hrest].
  apply negb_true_iff in Hc.
  change (crlf (c :: rest))
    with ((if c =? LF then [CR; LF] else [c]) ++ crlf rest).
  destruct (c =? LF) eqn:Hlf.
  - apply N.eqb_eq in Hlf. subst c.
    cbn [app]. simpl. f_equal.
    rewrite (IH [] Hrest). destruct rest; reflexivity.
  - cbn [app splitlines_from]. rewrite Hc. cbn [andb].
    destruct (is_linebreak c).
    + f_equal. rewrite (IH [] Hrest).
      destruct rest as [|c2 rest2]; [reflexivity|].
      destruct (crlf (c2 :: rest2)) eqn:E; [|reflexivity].
      apply crlf_nil in E. discriminate E.
    + apply IH. exact Hrest.
Qed.

Lemma splitlines_from_length (s cur : pystr) :
  (length (splitlines_from cur s)
   <= length s + match cur with [] => 0 | _ :: _ => 1 end)%nat.
Proof.
  remember (length s) as n eqn:Hn. revert s cur Hn.
  induction n as [n IH] using lt_wf_ind. intros s cur Hn.
  destruct s as [|c rest].
  - destruct cur; simpl; lia.
  - cbn [splitlines_from]. destruct (is_linebreak c).
    + destruct rest as [|c2 rest2]; [simpl in *; lia|].
      destruct ((c =? CR) && (c2 =? LF)).
      * assert (Hlt : (length rest2 < n)%nat) by (simpl in *; lia).
        pose proof (IH _ Hlt rest2 [] eq_refl). simpl in *. lia.
      * assert (Hlt : (length (c2 :: rest2) < n)%nat) by (simpl in *; lia).
        pose proof (IH _ Hlt (c2 :: rest2) [] eq_refl). simpl in *. lia.
    + assert (Hlt : (length rest < n)%nat) by (simpl in *; lia).
      pose proof (IH _ Hlt rest (c :: cur) eq_refl). simpl in *. lia.
Qed.

End TokenLines.

Lemma round_trip_newline_separated_witness :
  (source_token_lines_ov (cls (new (lit "foo.py"))) = None
   /\ call_source (one_file (lit "foo.py") [Byte.x61; Byte.x0a; Byte.x62])
        (new (lit "foo.py")) = Ok (lit "a" ++ [LF] ++ lit "b"))
  /\ call_source_token_lines
       (one_file (lit "foo.py") [Byte.x61; Byte.x0a; Byte.x62])
       (new (lit "foo.py"))
     = Ok (map (fun line => [(txt, line)])
             (splitlines (lit "a" ++ [LF] ++ lit "b")))
  /\ (round_trips (one_file (lit "foo.py") [Byte.x61; Byte.x0a; Byte.x62])
        (new (lit "foo.py"))
      <-> newline_separated (lit "a" ++ [LF] ++ lit "b")).
Proof.
  split; [split; reflexivity|].
  apply (round_trip_newline_separated
           (one_file (lit "foo.py") [Byte.x61; Byte.x0a; Byte.x62])
           (new (lit "foo.py")) (lit "a" ++ [LF] ++ lit "b"));
    reflexivity.
Defined.

(** X2: the default token lines of a source are single [txt] tokens whose
    texts hold no line boundary; there are at most as many lines as
    characters, and none exactly when the source is empty. *)
Theorem token_lines_shape (fs : filesystem) (r : reporter) (text : pystr) :
  source_token_lines_ov (cls r) = None ->
  call_source fs r = Ok text ->
  exists token_lines,
    call_source_token_lines fs r = Ok token_lines
    /\ Forall txt_line token_lines
    /\ (length token_lines <= length text)%nat
    /\ (token_lines = [] <-> text = []).
Proof.
  intros Hov Hsrc. eexists. split; [apply default_token_lines; eassumption|].
  split; [|split].
  - apply Forall_map.
    eapply Forall_impl; [apply (splitlines_from_lines text []); reflexivity|].
    intros l Hl. exists l. split; [reflexivity | exact Hl].
  - rewrite length_map.
    pose proof (splitlines_from_length text []) as H. simpl in H.
    unfold splitlines. lia.
  - split.
    + intros H. apply map_eq_nil in H.
      destruct text as [|c t]; [reflexivity|].
      exfalso. eapply (splitlines_from_nonempty [] (c :: t)); [discriminate|].
      exact H.
    + intros ->. reflexivity.
Qed.

Lemma token_lines_shape_witness :
  (source_token_lines_ov (cls (new (lit "foo.py"))) = None
   /\ call_source (one_file (lit "foo.py") [Byte.x61; Byte.x0d; Byte.x0a])
        (new (lit "foo.py")) = Ok (lit "a" ++ [CR; LF]))
  /\ exists token_lines,
       call_source_token_lines
         (one_file (lit "foo.py") [Byte.x61; Byte.x0d; Byte.x0a])
         (new (lit "foo.py")) = Ok token_lines
       /\ Forall txt_line token_lines
       /\ (length token_lines <= length (lit "a" ++ [CR; LF]))%nat
       /\ (token_lines = [] <-> lit "a" ++ [CR; LF] = []).
Proof.
  split; [split; reflexivity|].
  apply (token_lines_shape
           (one_file (lit "foo.py") [Byte.x61; Byte.x0d; Byte.x0a])
           (new (lit "foo.py")) (lit "a" ++ [CR; LF])); reflexivity.
Defined.

(** X3: a newline added at the end of a source that is not empty and does
    not end in a line boundary leaves the default token lines unchanged:
    the two sources cannot be told apart from their token lines. *)
Theorem final_newline_not_seen (fs : filesystem) (r1 r2 : reporter)
    (text : pystr) :
  source_token_lines_ov (cls r1) = None ->
  source_token_lines_ov (cls r2) = None ->
  call_source fs r1 = Ok text ->
  call_source fs r2 = Ok (text ++ [LF]) ->
  text <> [] -> open_ended text ->
  call_source_token_lines fs r2 = call_source_token_lines fs r1.
Proof.
  intros H1 H2 Hs1 Hs2 Hne Hopen.
  rewrite (default_token_lines fs r1 text H1 Hs1).
  rewrite (default_token_lines fs r2 _ H2 Hs2).
  unfold splitlines. rewrite splitlines_from_final_newline; auto.
Qed.

(** X4: a source written with Windows line ends has the default token lines
    of the same source written with newlines. *)
Theorem crlf_not_seen (fs : filesystem) (r1 r2 : reporter) (text : pystr) :
  source_token_lines_ov (cls r1) = None ->
  source_token_lines_ov (cls r2) = None ->
  call_source fs r1 = Ok text ->
  call_source fs r2 = Ok (crlf text) ->
  no_CR text = true ->
  call_source_token_lines fs r2 = call_source_token_lines fs r1.
Proof.
  intros H1 H2 Hs1 Hs2 Hcr.
  rewrite (default_token_lines fs r1 text H1 Hs1).
  rewrite (default_token_lines fs r2 _ H2 Hs2).
  unfold splitlines. rewrite splitlines_from_crlf; auto.
Qed.

Lemma final_newline_not_seen_witness :
  (source_token_lines_ov (cls (new (lit "a.py"))) = None
   /\ source_token_lines_ov (cls (new (lit "b.py"))) = None
   /\ call_source (two_files (lit "a.py") [Byte.x78]
                     (lit "b.py") [Byte.x78; Byte.x0a])
        (new (lit "a.py")) = Ok (lit "x")
   /\ call_source (two_files (lit "a.py") [Byte.x78]
                     (lit "b.py") [Byte.x78; Byte.x0a])
        (new (lit "b.py")) = Ok (lit "x" ++ [LF])
   /\ lit "x" <> [] /\ open_ended (lit "x"))
  /\ call_source_token_lines
       (two_files (lit "a.py") [Byte.x78] (lit "b.py") [Byte.x78; Byte.x0a])
       (new (lit "b.py"))
     = call_source_token_lines
         (two_files (lit "a.py") [Byte.x78] (lit "b.py") [Byte.x78; Byte.x0a])
         (new (lit "a.py")).
Proof.
  assert (Hopen : open_ended (lit "x")).
  { intros c Hc. vm_compute in Hc. injection Hc as <-. reflexivity. }
  split.
  - repeat split; try reflexivity; [discriminate | exact Hopen].
  - apply (final_newline_not_seen
             (two_files (lit "a.py") [Byte.x78]
                (lit "b.py") [Byte.x78; Byte.x0a])
             (new (lit "a.py")) (new (lit "b.py")) (lit "x"));
      try reflexivity; [discriminate | exact Hopen].
Defined.

Lemma crlf_not_seen_witness :
  (source_token_lines_ov (cls (new (lit "unix.py"))) = None
   /\ source_token_lines_ov (cls (new (lit "dos.py"))) = None
   /\ call_source (two_files (lit "unix.py") [Byte.x78; Byte.x0a; Byte.x79]
                     (lit "dos.py") [Byte.x78; Byte.x0d; Byte.x0a; Byte.x79])
        (new (lit "unix.py")) = Ok (lit "x" ++ [LF] ++ lit "y")
   /\ call_source (two_files (lit "unix.py") [Byte.x78; Byte.x0a; Byte.x79]
                     (lit "dos.py") [Byte.x78; Byte.x0d; Byte.x0a; Byte.x79])
        (new (lit "dos.py")) = Ok (crlf (lit "x" ++ [LF] ++ lit "y"))
   /\ no_CR (lit "x" ++ [LF] ++ lit "y") = true)
  /\ call_source_token_lines
       (two_files (lit "unix.py") [Byte.x78; Byte.x0a; Byte.x79]
          (lit "dos.py") [Byte.x78; Byte.x0d; Byte.x0a; Byte.x79])
       (new (lit "dos.py"))
     = call_source_token_lines
         (two_files (lit "unix.py") [Byte.x78; Byte.x0a; Byte.x79]
            (lit "dos.py") [Byte.x78; Byte.x0d; Byte.x0a; Byte.x79])
         (new (lit "unix.py")).
Proof.
  split.
  - repeat split; reflexivity.
  - apply (crlf_not_seen
             (two_files (lit "unix.py") [Byte.x78; Byte.x0a; Byte.x79]
                (lit "dos.py") [Byte.x78; Byte.x0d; Byte.x0a; Byte.x79])
             (new (lit "unix.py")) (new (lit "dos.py"))
             (lit "x" ++ [LF] ++ lit "y")); reflexivity.
Defined.

(** ** UTF-8 *)

Section Utf8.

Local Ltac div_lia := zify; Z.to_euclidean_division_equations; lia.

Local Ltac decide_tests :=
  repeat (match goal with
          | |- context [N.eqb ?a ?b] => destruct (N.eqb_spec a b)
          | |- context [N.ltb ?a ?b] => destruct (N.ltb_spec a b)
          | |- context [N.leb ?a ?b] => destruct (N.leb_spec a b)
          end; cbn [andb orb]; try (intros; discriminate); try div_lia).

Lemma scalar_value_spec (c : codepoint) :
  scalar_value c = true <-> c < 0xD800 \/ (0xDFFF < c /\ c < 0x110000).
Proof.
  unfold scalar_value.
  rewrite orb_true_iff, andb_true_iff, !N.ltb_lt. reflexivity.
Qed.

Local Ltac lia_tests :=
  repeat (match goal with
          | |- context [N.eqb ?a ?b] => destruct (N.eqb_spec a b)
          | |- context [N.ltb ?a ?b] => destruct (N.ltb_spec a b)
          | |- context [N.leb ?a ?b] => destruct (N.leb_spec a b)
          end; cbn [andb orb]; try lia).

Lemma utf8_decode_encode_cp (c : codepoint) (rest : list N) :
  scalar_value c = true ->
  utf8_decode (utf8_encode_cp c ++ rest) = cons c <$> utf8_decode rest.
Proof.
  intros Hs. apply scalar_value_spec in Hs. unfold utf8_encode_cp.
  destruct (N.ltb_spec c 0x80); [|destruct (N.ltb_spec c 0x800);
    [|destruct (N.ltb_spec c 0x10000)]];
    cbn [app utf8_decode]; unfold continuation, in_range, payload.
  - lia_tests. reflexivity.
  - assert (c / 0x40 * 0x40 + c mod 0x40 = c /\ c mod 0x40 < 0x40)
      as [Hc Hm] by div_lia.
    generalize dependent (c / 0x40). generalize dependent (c mod 0x40).
    intros m Hm q Hc.
    lia_tests.
    replace ((0xC0 + q - 0xC0) * 0x40 + (0x80 + m - 0x80)) with c by lia.
    reflexivity.
  - assert (c / 0x1000 * 0x1000 + (c / 0x40) mod 0x40 * 0x40 + c mod 0x40 = c
            /\ (c / 0x40) mod 0x40 < 0x40 /\ c mod 0x40 < 0x40)
      as (Hc & Hq & Hm) by div_lia.
    generalize dependent (c / 0x1000).
    generalize dependent ((c / 0x40) mod 0x40).
    generalize dependent (c mod 0x40).
    intros m Hm q Hq p Hc.
    lia_tests.
    all: replace ((0xE0 + p - 0xE0) * 0x1000 + (0x80 + q - 0x80) * 0x40
                  + (0x80 + m - 0x80)) with c by lia;
      reflexivity.
  - assert (c / 0x40000 * 0x40000 + (c / 0x1000) mod 0x40 * 0x1000
            + (c / 0x40) mod 0x40 * 0x40 + c mod 0x40 = c
            /\ (c / 0x1000) mod 0x40 < 0x40
            /\ (c / 0x40) mod 0x40 < 0x40 /\ c mod 0x40 < 0x40)
      as (Hc & Hp & Hq & Hm) by div_lia.
    generalize dependent (c / 0x40000).
    generalize dependent ((c / 0x1000) mod 0x40).
    generalize dependent ((c / 0x40) mod 0x40).
    generalize dependent (c mod 0x40).
    intros m Hm q Hq p Hp o Hc.
    lia_tests.
    all: replace ((0xF0 + o - 0xF0) * 0x40000 + (0x80 + p - 0x80) * 0x1000
                  + (0x80 + q - 0x80) * 0x40 + (0x80 + m - 0x80))
           with c by lia;
      reflexivity.
Qed.

Lemma utf8_decode_encode (s : pystr) :
  forallb scalar_value s = true -> utf8_decode (utf8_encode s) = Some s.
Proof.
  induction s as [|c s IH]; intros Hs; [reflexivity|].
  simpl in Hs. apply andb_true_iff in Hs as [Hc Hs].
  change (utf8_encode (c :: s)) with (utf8_encode_cp c ++ utf8_encode s).
  rewrite (utf8_decode_encode_cp c _ Hc), (IH Hs). reflexivity.
Qed.

Local Ltac split_tests :=
  repeat (match goal with
          | |- context [N.eqb ?a ?b] => destruct (N.eqb_spec a b)
          | |- context [N.ltb ?a ?b] => destruct (N.ltb_spec a b)
          | |- context [N.leb ?a ?b] => destruct (N.leb_spec a b)
          end; cbn [andb orb]; try (intros; discriminate)).

(** One decoded character: the rest decodes by induction, the bytes read
    are the encoding of the character, and the character is a scalar
    value. *)
Local Ltac decoded_char IH :=
  match goal with
  | |- cons ?cp <$> utf8_decode ?r = Some _ -> _ =>
      let t := fresh "t" in
      let E := fresh "E" in
      let He := fresh "He" in
      let Hs := fresh "Hs" in
      destruct (utf8_decode r) as [t|] eqn:E; [|discriminate];
      intros [= <-];
      assert (utf8_encode t = r /\ forallb scalar_value t = true)
        as [He Hs]
        by (eapply IH; [| reflexivity | exact E]; simpl in *; lia);
      split;
      [ change (utf8_encode (cp :: t))
          with (utf8_encode_cp cp ++ utf8_encode t);
        rewrite He; unfold utf8_encode_cp; decide_tests;
        cbn [app]; repeat f_equal; div_lia
      | cbn [forallb]; rewrite Hs, andb_true_r;
        apply scalar_value_spec; div_lia ]
  end.

(** What decodes is the encoding of the decoded text, and the decoded text
    holds scalar values only. *)
Lemma utf8_decode_sound (bs : list N) (text : pystr) :
  utf8_decode bs = Some text ->
  utf8_encode text = bs /\ forallb scalar_value text = true.
Proof.
  remember (length bs) as n eqn:Hn. revert bs text Hn.
  induction n as [n IH] using lt_wf_ind. intros bs text Hn.
  destruct bs as [|b0 r0]; [intros [= <-]; split; reflexivity|].
  cbn [utf8_decode]. unfold continuation, in_range, payload.
  destruct (N.ltb_spec b0 0x80); [decoded_char IH|].
  destruct (N.ltb_spec b0 0xC2); [discriminate|].
  destruct (N.ltb_spec b0 0xE0).
  { destruct r0 as [|b1 r1]; [discriminate|].
    split_tests; decoded_char IH. }
  destruct (N.ltb_spec b0 0xF0).
  { destruct r0 as [|b1 [|b2 r2]]; try discriminate.
    split_tests; decoded_char IH. }
  destruct (N.ltb_spec b0 0xF5); [|discriminate].
  destruct r0 as [|b1 [|b2 [|b3 r3]]]; try discriminate.
  split_tests; decoded_char IH.
Qed.

End Utf8.

(** X6: with the default [source], over a file that exists, [source] returns
    a text exactly when the file holds the UTF-8 encoding of that text and
    the text holds Unicode scalar values only. *)
Theorem source_utf8_iff (fs : filesystem) (r : reporter)
    (content : list Byte.byte) (text : pystr) :
  source_ov (cls r) = None ->
  fs !! filename (dict r) = Some content ->
  call_source fs r = Ok text
  <-> map Byte.to_N content = utf8_encode text
      /\ forallb scalar_value text = true.
Proof.
  intros Hov Hfs. unfold call_source. rewrite Hov.
  unfold source, Misc.contract_returns_unicode, read_binary.
  rewrite Hfs. simpl. unfold decode_utf8. split.
  - destruct (utf8_decode (map Byte.to_N content)) as [t|] eqn:E;
      [|discriminate].
    intros [= ->]. destruct (utf8_decode_sound _ _ E) as [He Hs].
    split; [symmetry; exact He | exact Hs].
  - intros [He Hs]. rewrite He, (utf8_decode_encode text Hs). reflexivity.
Qed.

Lemma source_utf8_iff_witness :
  (source_ov (cls (new (lit "foo.py"))) = None
   /\ one_file (lit "foo.py") [Byte.xc3; Byte.xa9; Byte.x0a]
        !! filename (dict (new (lit "foo.py")))
      = Some [Byte.xc3; Byte.xa9; Byte.x0a])
  /\ (call_source (one_file (lit "foo.py") [Byte.xc3; Byte.xa9; Byte.x0a])
        (new (lit "foo.py")) = Ok [0xE9; LF]
      <-> map Byte.to_N [Byte.xc3; Byte.xa9; Byte.x0a] = utf8_encode [0xE9; LF]
          /\ forallb scalar_value [0xE9; LF] = true).
Proof.
  split; [split; reflexivity|].
  apply (source_utf8_iff
           (one_file (lit "foo.py") [Byte.xc3; Byte.xa9; Byte.x0a])
           (new (lit "foo.py")) [Byte.xc3; Byte.xa9; Byte.x0a] [0xE9; LF]);
    reflexivity.
Defined.

(** ** More on the ordering *)

Lemma eq_reporters (a b : reporter) :
  __eq__ a (Reporter b) = Ok (str_eq (filename (dict a)) (filename (dict b))).
Proof. reflexivity. Qed.

Lemma str_le_trans (a b c : pystr) :
  str_lt b a = false -> str_lt c b = false -> str_lt c a = false.
Proof.
  intros Hab Hbc. destruct (str_lt c a) eqn:Hca; [|reflexivity].
  destruct (decide (a = b)) as [->|Hne]; [congruence|].
  assert (Hlt : str_lt a b = true).
  { rewrite (str_lt_total a b Hne), Hab. reflexivity. }
  rewrite (str_lt_trans c a b Hca Hlt) in Hbc. discriminate.
Qed.

(** X7: the comparisons [functools.total_ordering] adds to [FileReporter]
    agree with [__lt__]: a > b is b < a, a >= b is b <= a, and a <= b is
    the negation of a > b. *)
Theorem total_ordering_agrees (a b : reporter) :
  __gt__ a (Reporter b) = __lt__ b (Reporter a)
  /\ __ge__ a (Reporter b) = __le__ b (Reporter a)
  /\ __le__ a (Reporter b) = (g ← __gt__ a (Reporter b); Ok (negb g))
  /\ __ge__ a (Reporter b) = (l ← __lt__ a (Reporter b); Ok (negb l)).
Proof.
  destruct (derived_comparisons a b) as (Hgt & Hle & Hge).
  destruct (derived_comparisons b a) as (_ & Hle' & _).
  rewrite Hgt, Hle, Hge, Hle', !lt_reporters. repeat split.
Qed.

(** X8: of [a < b], [a == b] and [a > b] exactly one holds, for any two
    reporters. *)
Theorem comparison_trichotomy (a b : reporter) :
  (__lt__ a (Reporter b) = Ok true /\ __eq__ a (Reporter b) = Ok false
   /\ __gt__ a (Reporter b) = Ok false)
  \/ (__lt__ a (Reporter b) = Ok false /\ __eq__ a (Reporter b) = Ok true
      /\ __gt__ a (Reporter b) = Ok false)
  \/ (__lt__ a (Reporter b) = Ok false /\ __eq__ a (Reporter b) = Ok false
      /\ __gt__ a (Reporter b) = Ok true).
Proof.
  destruct (derived_comparisons a b) as (Hgt & _ & _).
  rewrite Hgt, lt_reporters, eq_reporters.
  destruct (decide (filename (dict a) = filename (dict b))) as [E|E].
  - rewrite E, str_lt_irrefl, (proj2 (str_eq_spec _ _) eq_refl). auto.
  - rewrite (str_lt_total _ _ E), (proj2 (str_eq_false _ _) E).
    destruct (str_lt (filename (dict b)) (filename (dict a))); simpl; auto.
Qed.

(** X9: against a value that is not a [FileReporter] the derived comparisons
    do not raise either, and they order the reporter above the value:
    [>], [>=] and [!=] return True, [<=] returns False. *)
Theorem derived_compare_with_non_reporter (self : reporter) (other : pyobj) :
  isinstance_FileReporter other = false ->
  __gt__ self other = Ok true
  /\ __ge__ self other = Ok true
  /\ __le__ self other = Ok false
  /\ __ne__ self other = Ok true.
Proof.
  intros Hother. unfold __gt__, __ge__, __le__, __ne__, __lt__, __eq__.
  rewrite Hother. repeat split.
Qed.

Lemma derived_compare_with_non_reporter_witness :
  isinstance_FileReporter (Plain (VInt 5)) = false
  /\ __gt__ (new (lit "foo.py")) (Plain (VInt 5)) = Ok true
  /\ __ge__ (new (lit "foo.py")) (Plain (VInt 5)) = Ok true
  /\ __le__ (new (lit "foo.py")) (Plain (VInt 5)) = Ok false
  /\ __ne__ (new (lit "foo.py")) (Plain (VInt 5)) = Ok true.
Proof.
  split; [reflexivity|].
  apply (derived_compare_with_non_reporter (new (lit "foo.py"))
           (Plain (VInt 5))).
  reflexivity.
Defined.

(** X10: [<=] on reporters is a total order up to [==]: it is reflexive and
    total, two reporters below each other are equal, and it is
    transitive. *)
Theorem le_total_order (a b c : reporter) :
  __le__ a (Reporter a) = Ok true
  /\ (__le__ a (Reporter b) = Ok true \/ __le__ b (Reporter a) = Ok true)
  /\ (__le__ a (Reporter b) = Ok true -> __le__ b (Reporter a) = Ok true ->
      __eq__ a (Reporter b) = Ok true)
  /\ (__le__ a (Reporter b) = Ok true -> __le__ b (Reporter c) = Ok true ->
      __le__ a (Reporter c) = Ok true).
Proof.
  destruct (derived_comparisons a a) as (_ & Haa & _).
  destruct (derived_comparisons a b) as (_ & Hab & _).
  destruct (derived_comparisons b a) as (_ & Hba & _).
  destruct (derived_comparisons b c) as (_ & Hbc & _).
  destruct (derived_comparisons a c) as (_ & Hac & _).
  rewrite Haa, Hab, Hba, Hbc, Hac, eq_reporters, str_lt_irrefl.
  split; [reflexivity|]. split; [|split].
  - destruct (decide (filename (dict a) = filename (dict b))) as [E|E].
    + rewrite E, str_lt_irrefl. auto.
    + rewrite (str_lt_total _ _ E).
      destruct (str_lt (filename (dict b)) (filename (dict a))); auto.
  - intros [= H1] [= H2]. apply negb_true_iff in H1, H2. f_equal.
    apply str_eq_spec.
    destruct (decide (filename (dict a) = filename (dict b))) as [E|E];
      [exact E|].
    rewrite (str_lt_total _ _ E), H1 in H2. discriminate.
  - intros [= H1] [= H2]. apply negb_true_iff in H1, H2. f_equal.
    apply negb_true_iff. eapply str_le_trans; eassumption.
Qed.

(** ** More on the defaults *)

(** X11: the default [translate_lines] keeps exactly the recorded lines,
    whatever their order and repeats: the lines of two recordings put
    together are the union of their translations, and the result has at
    most as many lines as were recorded. *)
Theorem translate_lines_merge (r : reporter) (l1 l2 : list Z) :
  translate_lines r (l1 ++ l2) = translate_lines r l1 ∪ translate_lines r l2
  /\ (forall x, x ∈ translate_lines r l1 <-> x ∈ l1)
  /\ (forall l', l1 ≡ₚ l' -> translate_lines r l' = translate_lines r l1)
  /\ (size (translate_lines r l1) <= length l1)%nat.
Proof.
  unfold translate_lines. split; [|split; [|split]].
  - apply list_to_set_app_L.
  - intros x. apply elem_of_list_to_set.
  - intros l' Hp. apply set_eq. intros x.
    rewrite !elem_of_list_to_set, Hp. reflexivity.
  - induction l1 as [|x l IH].
    { change (list_to_set [] : gset Z) with (∅ : gset Z).
      rewrite size_empty. simpl. lia. }
    simpl. rewrite size_union_alt, size_singleton.
    assert (size (list_to_set l ∖ {[x]} : gset Z)
            <= size (list_to_set l : gset Z))%nat
      by (apply subseteq_size; intros y [Hy _]%elem_of_difference;
          exact Hy).
    lia.
Qed.

Section Descriptions.

Lemma uint_str_no_space (u : Decimal.uint) : ~ In 0x20 (uint_str u).
Proof.
  induction u; simpl; intros H; try contradiction;
    destruct H as [H|H]; try discriminate H; auto.
Qed.

Lemma int_str_no_space (z : Z) : ~ In 0x20 (int_str z).
Proof.
  unfold int_str. destruct (Z.to_int z) as [u|u]; simpl.
  - apply uint_str_no_space.
  - intros [H|H]; [discriminate H | exact (uint_str_no_space u H)].
Qed.

Lemma int_str_inj (x y : Z) : int_str x = int_str y -> x = y.
Proof.
  intros H. apply (f_equal parse_int) in H.
  rewrite !parse_int_str in H. congruence.
Qed.

Lemma Ok_inj {A} (a b : A) : Ok a = Ok b -> a = b.
Proof. congruence. Qed.

(** Two texts that are cut at the first [x] agree part by part. *)
Lemma app_cut_inj (x : codepoint) (a b r r' : pystr) :
  ~ In x a -> ~ In x b -> a ++ x :: r = b ++ x :: r' -> a = b /\ r = r'.
Proof.
  revert b; induction a as [|c a IH]; intros [|d b] Ha Hb H; simpl in *.
  - injection H as ->. auto.
  - injection H as <- _. exfalso. apply Hb. left. reflexivity.
  - injection H as -> _. exfalso. apply Ha. left. reflexivity.
  - injection H as -> H.
    destruct (IH b) as [-> ->]; auto.
Qed.

End Descriptions.

(** X12: the default description of a missing arc tells the arcs apart:
    when a description is returned, a second one is returned with the same
    text exactly when it is for the same start and end lines, whatever the
    reporter and the executed arcs. *)
Theorem missing_arc_description_inj (r1 r2 : reporter) (s1 e1 s2 e2 : Z)
    (x1 x2 : option (gset arc)) (text : pystr) :
  missing_arc_description r1 s1 e1 x1 = Ok text ->
  missing_arc_description r2 s2 e2 x2 = Ok text <-> s1 = s2 /\ e1 = e2.
Proof.
  intros H1. split.
  - intros H2. unfold missing_arc_description in H1, H2.
    destruct (format_int s1) as [a1|] eqn:Ea1; [|discriminate].
    destruct (format_int e1) as [b1|] eqn:Eb1; [|discriminate].
    destruct (format_int s2) as [a2|] eqn:Ea2; [|discriminate].
    destruct (format_int e2) as [b2|] eqn:Eb2; [|discriminate].
    apply format_int_inv in Ea1, Eb1, Ea2, Eb2. subst.
    cbn [mbind result_bind] in H1, H2.
    apply Ok_inj in H1, H2. subst text. rename H2 into H.
    apply app_inv_head in H.
    change (lit " didn't jump to line ")
      with (0x20 :: lit "didn't jump to line ") in H.
    cbn [app] in H.
    apply app_cut_inj in H as [Hs He]; try apply int_str_no_space.
    apply app_inv_head in He.
    split; symmetry; apply int_str_inj; assumption.
  - intros [<- <-]. exact H1.
Qed.

Lemma missing_arc_description_inj_witness :
  missing_arc_description (new (lit "foo.py")) 5 (-1) None
    = Ok (lit "Line 5 didn't jump to line -1")
  /\ (missing_arc_description (new (lit "bar.py")) 5 (-1) (Some ∅)
      = Ok (lit "Line 5 didn't jump to line -1")
      <-> 5%Z = 5%Z /\ (-1)%Z = (-1)%Z).
Proof.
  split; [reflexivity|].
  apply (missing_arc_description_inj (new (lit "foo.py")) (new (lit "bar.py"))
           5 (-1) 5 (-1) None (Some ∅) (lit "Line 5 didn't jump to line -1")).
  reflexivity.
Defined.
